(** * The Setapp device client: token store and refresh-aware request pipeline

    A shallow embedding of [src/disconnectSetappDevices.tsx] in its two
    versions: the first one, where the pipeline is the function [request]
    nested in [main], and the second one, with the classes [TokenStore] and
    [SetappClient].

    Asynchronous code is written in a monad that threads the state of the
    outside world (the local storage, the abort signal, the network calls
    issued so far and the lines handed to the logger) and that knows three
    outcomes of a promise: fulfilled, rejected, and not settled yet.  The
    recursion of the pipeline has no bound in the source, so the recursive
    functions take a fuel argument and leave the promise unsettled when it
    runs out. *)

From Stdlib Require Import ZArith Ascii String List Bool Lia.
From stdpp Require Import gmap strings list pretty.

Open Scope string_scope.
Open Scope Z_scope.
Open Scope list_scope.

(** ** Values of the platform *)

(** A parsed JSON document.  Numbers are the integers the service sends. *)
#[warnings="-register-all"]
Inductive JSON : Type :=
  | JNull
  | JBool (b : bool)
  | JNumber (n : Z)
  | JString (s : string)
  | JArray (items : list JSON)
  | JObject (fields : list (string * JSON)).

Fixpoint assoc (k : string) (fields : list (string * JSON)) : option JSON :=
  match fields with
  | [] => None
  | (k', v) :: rest => if String.eqb k k' then Some v else assoc k rest
  end.

(** [j.k] on a parsed document: [None] stands for [undefined]. *)
Definition prop (k : string) (j : JSON) : option JSON :=
  match j with
  | JObject fields => assoc k fields
  | _ => None
  end.

(** The text [JSON.stringify] makes of a value; the text is kept symbolic. *)
Inductive Body : Type :=
  | JSON_stringify (value : JSON).

Inductive Method : Type := GET | POST | DELETE.

(** A [Request] is used as a value, a description of a call: the model
    does not follow whether its body has been read already. *)
Record Request : Type := mkRequest {
  url : string;
  method : Method;
  body : option Body;
  headers : list (string * string)
}.

(** [new Request(url, { method, body })]; [new Request(url)] is a GET
    without a body. *)
Definition Request_new (u : string) (m : Method) (b : option Body) : Request :=
  {| url := u; method := m; body := b; headers := [] |}.

(** [new Request(req, { headers })]: a copy of [req] whose header list is
    the one of the init object. *)
Definition Request_init (req : Request) (hs : list (string * string)) : Request :=
  {| url := url req; method := method req; body := body req; headers := hs |}.

(** What the code reads of a [Response]: the status, and the document that
    [json()] parses ([None] when the body is not JSON). *)
Record Response : Type := mkResponse {
  status : Z;
  json : option JSON
}.

(** [resp.ok]: the status is in the range 200-299. *)
Definition ok (resp : Response) : bool :=
  (200 <=? status resp) && (status resp <=? 299).

Inductive Exn : Type :=
  | Error (message : string)   (* [throw Error(message)] *)
  | AbortError                 (* the rejection of an aborted [fetch] *)
  | TypeError                  (* a property read on a missing value *)
  | SyntaxError.               (* [json()] on a body that is not JSON *)

Record Device : Type := mkDevice {
  id : Z;
  name : string
}.

(** ** The world and the promise monad *)

Record World : Type := mkWorld {
  storage : gmap string string;  (* [LocalStorage] *)
  aborted : bool;                (* [abortController.signal.aborted] *)
  calls : list Request;          (* the calls that reached the network, oldest first *)
  lines : list string            (* the lines handed to the logger, oldest first *)
}.

Definition set_storage (f : gmap string string -> gmap string string) (w : World) : World :=
  {| storage := f (storage w); aborted := aborted w; calls := calls w; lines := lines w |}.

Definition set_aborted (b : bool) (w : World) : World :=
  {| storage := storage w; aborted := b; calls := calls w; lines := lines w |}.

Definition set_calls (cs : list Request) (w : World) : World :=
  {| storage := storage w; aborted := aborted w; calls := cs; lines := lines w |}.

Definition set_lines (ls : list string) (w : World) : World :=
  {| storage := storage w; aborted := aborted w; calls := calls w; lines := ls |}.

Inductive Outcome (A : Type) : Type :=
  | Returned (a : A)
  | Thrown (e : Exn)
  | Pending.

Arguments Returned {A} a.
Arguments Thrown {A} e.
Arguments Pending {A}.

Definition M (A : Type) : Type := World -> Outcome A * World.

Definition ret {A} (a : A) : M A := fun w => (Returned a, w).

Definition throw {A} (e : Exn) : M A := fun w => (Thrown e, w).

Definition pending {A} : M A := fun w => (Pending, w).

Definition bind {A B} (m : M A) (k : A -> M B) : M B :=
  fun w =>
    match m w with
    | (Returned a, w') => k a w'
    | (Thrown e, w') => (Thrown e, w')
    | (Pending, w') => (Pending, w')
    end.

Notation "'let!' x ':=' m 'in' k" := (bind m (fun x => k))
  (at level 10, x name, m at level 100, k at level 200).
Notation "'do!' m 'in' k" := (bind m (fun _ => k))
  (at level 10, m at level 100, k at level 200).

(** The network: the response to a call, given every call issued so far,
    the present one last. *)
Definition Transport : Type := list Request -> Response.

(** The transport that answers its n-th call (counted from 1) with [f n]. *)
Definition script (f : nat -> Response) : Transport :=
  fun history => f (length history).

(** [fetch(req, { signal })] and [fetch(req)].  With a signal that is
    already aborted the promise rejects and nothing is sent. *)
Definition fetch (transport : Transport) (req : Request)
    (signal : option (World -> bool)) : M Response :=
  fun w =>
    let stop := match signal with Some s => s w | None => false end in
    if stop then (Thrown AbortError, w)
    else
      let history := calls w ++ [req] in
      (Returned (transport history), set_calls history w).

(** [resp.json()] *)
Definition Response_json (resp : Response) : M JSON :=
  match json resp with
  | Some j => ret j
  | None => throw SyntaxError
  end.

(** [resp.json().then((json): { token: string; refresh_token: string } => json.data)]
    followed by the reads [data.token] and [data.refresh_token].  The cast
    is not checked by the source; the model follows the declared type and
    rejects a document that does not have it, as JavaScript does with a
    [TypeError] when [data] is missing. *)
Definition as_token_pair (j : JSON) : option (string * string) :=
  match prop "data" j with
  | Some data =>
      match prop "token" data, prop "refresh_token" data with
      | Some (JString t), Some (JString r) => Some (t, r)
      | _, _ => None
      end
  | None => None
  end.

Definition token_data (j : JSON) : M (string * string) :=
  match as_token_pair j with
  | Some data => ret data
  | None => throw TypeError
  end.

Definition as_device (j : JSON) : option Device :=
  match prop "id" j, prop "name" j with
  | Some (JNumber i), Some (JString n) => Some {| id := i; name := n |}
  | _, _ => None
  end.

Fixpoint as_devices (items : list JSON) : option (list Device) :=
  match items with
  | [] => Some []
  | j :: rest =>
      match as_device j, as_devices rest with
      | Some d, Some ds => Some (d :: ds)
      | _, _ => None
      end
  end.

(** [resp.json().then((json): Device[] => json.data)], with the declared
    type taken as for [token_data]. *)
Definition as_device_list (j : JSON) : option (list Device) :=
  match prop "data" j with
  | Some (JArray items) => as_devices items
  | _ => None
  end.

Definition device_data (j : JSON) : M (list Device) :=
  match as_device_list j with
  | Some devices => ret devices
  | None => throw TypeError
  end.

(** ** The logger *)

(** [type Logger = (text: string) => void].  The callback belongs to the
    owner of the client, and the client sees nothing of what it does with a
    line, unless it calls back into the client: the one operation that acts
    at once is [dispose].  A logger is described by its reaction to a line. *)
Inductive Reaction : Type :=
  | Keeps          (* the line is recorded *)
  | Disposes.      (* the line is recorded and the owner disposes the client *)

Definition Logger : Type := string -> Reaction.

Definition log (logger : Logger) (text : string) : M unit :=
  fun w =>
    let w' := set_lines (lines w ++ [text]) w in
    match logger text with
    | Keeps => (Returned tt, w')
    | Disposes => (Returned tt, set_aborted true w')
    end.

(** The logger of the component: it appends the line to the texts shown. *)
Definition sink : Logger := fun _ => Keeps.

(** ** The token store *)

Module LocalStorage.

Definition getItem (k : string) : M (option string) :=
  fun w => (Returned (storage w !! k), w).

Definition setItem (k v : string) : M unit :=
  fun w => (Returned tt, set_storage (insert k v) w).

End LocalStorage.

(** [await Promise.all([p1, p2, ...])]: every promise of the list has
    settled when the [await] returns. *)
Fixpoint Promise_all (ps : list (M unit)) : M unit :=
  match ps with
  | [] => ret tt
  | p :: rest => do! p in Promise_all rest
  end.

Record ITokenStore : Type := {
  getToken : M string;
  getRefreshToken : M string;
  updateTokens : string -> string -> M unit
}.

Definition KEY_TOKEN : string := "Token".
Definition KEY_REFRESH_TOKEN : string := "RefreshToken".

(** [class TokenStore implements ITokenStore]; the object [tokenStore] of
    the first version has the same three methods. *)
Definition TokenStore (defaultToken defaultRefreshToken : string) : ITokenStore :=
  {| getToken :=
       let! v := LocalStorage.getItem KEY_TOKEN in
       ret (default defaultToken v);
     getRefreshToken :=
       let! v := LocalStorage.getItem KEY_REFRESH_TOKEN in
       ret (default defaultRefreshToken v);
     updateTokens token refreshToken :=
       Promise_all [LocalStorage.setItem KEY_TOKEN token;
                    LocalStorage.setItem KEY_REFRESH_TOKEN refreshToken] |}.

Definition TOKEN_URL : string := "https://user-api.setapp.com/v1/token".
Definition DEVICES_URL : string := "https://user-api.setapp.com/v1/devices".

Definition auth_headers (token : string) : list (string * string) :=
  [("Authorization", "Bearer " +:+ token); ("Accept", "application/json")].

Definition refresh_body (refreshToken : string) : option Body :=
  Some (JSON_stringify (JObject [("refresh_token", JString refreshToken)])).

(** ** First version: [request], nested in [main] *)

Module Main.
Section Main.

Variable tokenStore : ITokenStore.
Variable logger : Logger.
Variable transport : Transport.

(** In the branch of the 401 the source declares [const req] and
    [const resp] again; the names below are shadowed in the same way.
    This version has no abort signal: its [fetch] takes none, and a
    disposal by the logger changes nothing in it. *)
Fixpoint request (fuel : nat) (req : Request) : M Response :=
  match fuel with
  | O => pending
  | S fuel =>
      let! token := getToken tokenStore in
      let! resp := fetch transport (Request_init req (auth_headers token)) None in
      if ok resp then ret resp
      else if status resp =? 401 then
        do! log logger "token expired, refreshing" in
        let! refreshToken := getRefreshToken tokenStore in
        let req := Request_new TOKEN_URL POST (refresh_body refreshToken) in
        let! resp := request fuel req in
        let! j := Response_json resp in
        let! data := token_data j in
        do! updateTokens tokenStore (fst data) (snd data) in
        do! log logger "token refreshed, start resending request" in
        request fuel req
      else throw (Error ("request error: " +:+ url req))
  end.

End Main.
End Main.

(** ** Second version: [class SetappClient] *)

Record SetappClient : Type := {
  tokenStore : ITokenStore;
  logger : Logger
}.

Module Client.
Section Client.

Variable this : SetappClient.
Variable transport : Transport.

(** [refreshToken], with the pipeline it calls as an argument. *)
Definition refreshToken_via (request : Request -> M Response) : M unit :=
  let! refreshToken := getRefreshToken (tokenStore this) in
  let req := Request_new TOKEN_URL POST (refresh_body refreshToken) in
  let! resp := request req in
  let! j := Response_json resp in
  let! data := token_data j in
  updateTokens (tokenStore this) (fst data) (snd data).

Fixpoint request (fuel : nat) (request_ : Request) : M Response :=
  match fuel with
  | O => pending
  | S fuel =>
      let! token := getToken (tokenStore this) in
      let request_ := Request_init request_ (auth_headers token) in
      let! resp := fetch transport request_ (Some aborted) in
      if ok resp then ret resp
      else if status resp =? 401 then
        do! log (logger this) "token expired, refreshing" in
        do! refreshToken_via (request fuel) in
        do! log (logger this) "token refreshed, start resending request" in
        request fuel request_
      else throw (Error ("request error: " +:+ url request_))
  end.

Definition refreshToken (fuel : nat) : M unit :=
  refreshToken_via (request fuel).

Definition fetchActiveDevices (fuel : nat) : M (list Device) :=
  do! log (logger this) "start fetching devices." in
  let req := Request_new DEVICES_URL GET None in
  let! resp := request fuel req in
  let! j := Response_json resp in
  let! devices := device_data j in
  do! (if 0 <? Z.of_nat (length devices)
       then log (logger this)
              ("fetched devices: " +:+ String.concat ", " (map name devices))
       else ret tt) in
  ret devices.

Definition disconnectDeviceById (fuel : nat) (id : Z) : M unit :=
  do! log (logger this) ("disconnecting device of id: " +:+ pretty id) in
  let req := Request_new (DEVICES_URL +:+ "/" +:+ pretty id) DELETE None in
  do! request fuel req in
  log (logger this) "device disconnected".

Definition dispose : M unit :=
  fun w => (Returned tt, set_aborted true w).

End Client.
End Client.

(** [createSetappClient(logger)], with the two preference values. *)
Definition createSetappClient (setappToken setappRefreshToken : string)
    (logger : Logger) : SetappClient :=
  {| tokenStore := TokenStore setappToken setappRefreshToken; logger := logger |}.

(** ** The host: clipboard, timers and the window *)

(** Modelled from the spec: [PopToRootType] of the host module
    [./raycast], which is not among the sources; the workflow asks for the
    immediate mode only. *)
Inductive PopToRootType : Type := Default | Immediate | Suspended.

(** What the workflow does to the host, beside the storage, the network
    and the logger: the text it copies, the time it waits, the window it
    closes. *)
Inductive HostEvent : Type :=
  | Copied (text : string)                     (* [Clipboard.copy(text)] *)
  | Waited (ms : Z)                            (* [delay(ms)] *)
  | WindowClosed (popToRootType : PopToRootType).  (* [closeMainWindow({ popToRootType })] *)

Record Host : Type := mkHost {
  world : World;
  events : list HostEvent     (* oldest first *)
}.

(** What a workflow can reject with: an exception of the pipeline, or the
    [AssertionError] of a failed [assert]. *)
Inductive Failure : Type :=
  | Rejected (e : Exn)
  | AssertionError (message : string).

Inductive Result (A : Type) : Type :=
  | Done (a : A)
  | Failed (f : Failure)
  | Unsettled.

Arguments Done {A} a.
Arguments Failed {A} f.
Arguments Unsettled {A}.

Definition H (A : Type) : Type := Host -> Result A * Host.

Definition hret {A} (a : A) : H A := fun h => (Done a, h).

Definition hfail {A} (f : Failure) : H A := fun h => (Failed f, h).

Definition hbind {A B} (m : H A) (k : A -> H B) : H B :=
  fun h =>
    match m h with
    | (Done a, h') => k a h'
    | (Failed f, h') => (Failed f, h')
    | (Unsettled, h') => (Unsettled, h')
    end.

Notation "'let*' x ':=' m 'in' k" := (hbind m (fun x => k))
  (at level 10, x name, m at level 100, k at level 200).
Notation "'do*' m 'in' k" := (hbind m (fun _ => k))
  (at level 10, m at level 100, k at level 200).

(** A promise of the client, awaited by the workflow. *)
Definition lift {A} (m : M A) : H A :=
  fun h =>
    match m (world h) with
    | (Returned a, w) => (Done a, {| world := w; events := events h |})
    | (Thrown e, w) => (Failed (Rejected e), {| world := w; events := events h |})
    | (Pending, w) => (Unsettled, {| world := w; events := events h |})
    end.

Definition emit (e : HostEvent) : H unit :=
  fun h => (Done tt, {| world := world h; events := events h ++ [e] |}).

(** Modelled from the spec: the clipboard-write capability of the host,
    [copy(text) -> void]; the model records the text. *)
Definition Clipboard_copy (text : string) : H unit := emit (Copied text).

(** [delay(ms)]: the promise fulfils when the timer fires. *)
Definition delay (ms : Z) : H unit := emit (Waited ms).

(** Modelled from the spec: the window-close capability of the host; the
    model records the mode it was called with. *)
Definition closeMainWindow (popToRootType : PopToRootType) : H unit :=
  emit (WindowClosed popToRootType).

(** [assert(value, message)] *)
Definition assert (value : bool) (message : string) : H unit :=
  if value then hret tt else hfail (AssertionError message).

Definition device_count_message (devices : list Device) : string :=
  "Unexpected device count, got " +:+ pretty (Z.of_nat (length devices))
  +:+ " devices.".

(** ** First version: [main] *)

(** [devices.at(0)!] is the head of the list; on an empty list the read of
    [id] on [undefined] would throw. *)
Definition main (tokenStore : ITokenStore) (setappPassword : string)
    (logger : Logger) (transport : Transport) (fuel : nat) : H unit :=
  let request := Main.request tokenStore logger transport fuel in
  do* lift (log logger "start fetching devices.") in
  let req := Request_new DEVICES_URL GET None in
  let* resp := lift (request req) in
  let* j := lift (Response_json resp) in
  let* devices := lift (device_data j) in
  do* (if 0 <? Z.of_nat (length devices) then
         do* lift (log logger
                ("fetched devices: " +:+ String.concat ", " (map name devices))) in
         do* assert (Z.of_nat (length devices) =? 1)
               (device_count_message devices) in
         match devices with
         | [] => hfail (Rejected TypeError)
         | deviceToBeDisconnect :: _ =>
             do* lift (log logger ("disconnecting device of id: "
                                   +:+ pretty (id deviceToBeDisconnect))) in
             let req := Request_new (DEVICES_URL +:+ "/"
                                     +:+ pretty (id deviceToBeDisconnect))
                          DELETE None in
             do* lift (request req) in
             do* lift (log logger "device disconnected") in
             do* Clipboard_copy setappPassword in
             lift (log logger "done.")
         end
       else lift (log logger "there is no active devices, closing...")) in
  do* delay 4000 in
  closeMainWindow Immediate.

(** ** Second version: the effect of the component *)

Module Component.

(** [fn], started by the effect of the component on the client it has
    created; [log] is the logger the client was given. *)
Definition fn (setappClient : SetappClient) (setappPassword : string)
    (transport : Transport) (fuel : nat) : H unit :=
  let log := fun text => lift (log (logger setappClient) text) in
  let* devices := lift (Client.fetchActiveDevices setappClient transport fuel) in
  if Z.of_nat (length devices) =? 0 then
    do* log "there is no active devices, closing..." in
    do* delay 4000 in
    closeMainWindow Immediate
  else
    do* assert (Z.of_nat (length devices) =? 1) (device_count_message devices) in
    match devices with
    | [] => hfail (Rejected TypeError)
    | deviceToBeDisconnect :: _ =>
        do* lift (Client.disconnectDeviceById setappClient transport fuel
                    (id deviceToBeDisconnect)) in
        do* Clipboard_copy setappPassword in
        do* log "done." in
        do* delay 4000 in
        closeMainWindow Immediate
    end.

(** The markdown of the [Detail]: one bullet for every text, joined by
    line feeds. *)
Definition LF : string := String "010"%char EmptyString.

Definition markdown (texts : list string) : string :=
  String.concat LF (map (fun t => "* " +:+ t) texts).

End Component.

(** ** Programs over the token store used in the statements *)

(** Both tokens, read one after the other. *)
Definition read_both (ts : ITokenStore) : M (string * string) :=
  let! token := getToken ts in
  let! refreshToken := getRefreshToken ts in
  ret (token, refreshToken).

(** One [updateTokens] call for every pair of the list, in order. *)
Fixpoint update_all (ts : ITokenStore) (pairs : list (string * string)) : M unit :=
  match pairs with
  | [] => ret tt
  | (token, refreshToken) :: rest =>
      do! updateTokens ts token refreshToken in
      update_all ts rest
  end.

(** [n] reads of both tokens, the results dropped. *)
Fixpoint read_times (ts : ITokenStore) (n : nat) : M unit :=
  match n with
  | O => ret tt
  | S n => do! read_both ts in read_times ts n
  end.

(** The storage after [updateTokens(token, refreshToken)]. *)
Definition stored (token refreshToken : string) (s : gmap string string)
    : gmap string string :=
  <[KEY_REFRESH_TOKEN := refreshToken]> (<[KEY_TOKEN := token]> s).

(** The token a read finds in the world [w], for the default [d]. *)
Definition access_token (d : string) (w : World) : string :=
  default d (storage w !! KEY_TOKEN).

Definition refresh_token (d : string) (w : World) : string :=
  default d (storage w !! KEY_REFRESH_TOKEN).

(** The request the refresh builds in the world [w], before the pipeline
    adds its headers. *)
Definition refresh_request (d : string) (w : World) : Request :=
  Request_new TOKEN_URL POST (refresh_body (refresh_token d w)).

(** The world after the logger has received a line. *)
Definition logged (logger : Logger) (text : string) (w : World) : World :=
  snd (log logger text w).

(** The run ended in the error of a failed request [req], after the one
    call [sent], and with the storage of [w]. *)
Definition fails_once {A} (run : Outcome A * World) (req sent : Request)
    (w : World) : Prop :=
  fst run = Thrown (Error ("request error: " +:+ url req))
  /\ calls (snd run) = calls w ++ [sent]
  /\ storage (snd run) = storage w.

(** Both reads find a non-empty string in [w]. *)
Definition nonempty_tokens (d1 d2 : string) (w : World) : Prop :=
  access_token d1 w <> "" /\ refresh_token d2 w <> "".

(** Every token pair the transport hands out in a document is made of
    non-empty strings. *)
Definition supplies_nonempty (tr : Transport) : Prop :=
  forall history doc t r,
    json (tr history) = Some doc -> as_token_pair doc = Some (t, r) ->
    t <> "" /\ r <> "".

(** What the owner of a client asks of it, and a session: the calls of a
    list made one after the other, each awaited whatever its outcome. *)
Inductive Op : Type :=
  | FetchActiveDevices
  | DisconnectDeviceById (id : Z).

Definition perform (this : SetappClient) (tr : Transport) (fuel : nat)
    (op : Op) (w : World) : World :=
  match op with
  | FetchActiveDevices => snd (Client.fetchActiveDevices this tr fuel w)
  | DisconnectDeviceById id => snd (Client.disconnectDeviceById this tr fuel id w)
  end.

Definition session (this : SetappClient) (tr : Transport) (fuel : nat)
    (ops : list Op) (w : World) : World :=
  fold_left (fun w op => perform this tr fuel op w) ops w.

(** A promise settles when some amount of fuel is enough for the run to
    end; it never settles when no amount is. *)
Definition settles {A} (run : nat -> Outcome A * World) : Prop :=
  exists fuel, fst (run fuel) <> Pending.

Definition never_settles {A} (run : nat -> Outcome A * World) : Prop :=
  forall fuel, fst (run fuel) = Pending.

(** The call [c] has the URL, the method and the body of [req]. *)
Definition same_target (c req : Request) : Prop :=
  url c = url req /\ method c = method req /\ body c = body req.

(** The call [c] is a refresh: a POST to the token endpoint whose body is
    the object with a refresh token. *)
Definition is_refresh (c : Request) : Prop :=
  url c = TOKEN_URL /\ method c = POST
  /\ exists refreshToken, body c = refresh_body refreshToken.

(** The headers of [c] are the two the pipeline sets, for some token. *)
Definition authorized (c : Request) : Prop :=
  exists token, headers c = auth_headers token.

(** ** Worlds, documents and transports of the examples *)

(** Nothing stored, nothing sent, nothing logged, the client live. *)
Definition fresh : World :=
  {| storage := ∅; aborted := false; calls := []; lines := [] |}.

Definition devices_request : Request :=
  Request_new DEVICES_URL GET None.

Definition token_doc (token refreshToken : string) : JSON :=
  JObject [("data", JObject [("token", JString token);
                             ("refresh_token", JString refreshToken)])].

Definition macOS_doc : JSON :=
  JObject [("data", JArray [JObject [("id", JNumber 123);
                                     ("name", JString "macOS")]])].

(** The three answers of the test "refresh token": a 401, the new pair,
    the device list. *)
Definition expired_once (token refreshToken : string) : Transport :=
  script (fun n =>
    match n with
    | 1%nat => {| status := 401; json := None |}
    | 2%nat => {| status := 200; json := Some (token_doc token refreshToken) |}
    | _ => {| status := 200; json := Some macOS_doc |}
    end).

(** A service that refuses every token: 401 to the odd calls, a new pair
    to the even ones, which are the refreshes. *)
Definition refusing (n : nat) : Response :=
  if Nat.odd n then {| status := 401; json := None |}
  else {| status := 200; json := Some (token_doc "11" "22") |}.

(** The token store of the tests of [SetappClient]: it answers with two
    fixed strings and drops the updates. *)
Definition stubStore : ITokenStore :=
  {| getToken := ret "__token__";
     getRefreshToken := ret "__refresh_token__";
     updateTokens _ _ := ret tt |}.

Definition setapp : SetappClient :=
  {| tokenStore := stubStore; logger := sink |}.

(** A service that answers 401 to every call, and one that answers 500,
    as in the test "unexpected fetch error". *)
Definition unauthorized : Transport :=
  fun _ => {| status := 401; json := None |}.

Definition broken : Transport :=
  fun _ => {| status := 500; json := None |}.

(** A service that accepts every call. *)
Definition accepting : Transport :=
  fun _ => {| status := 200; json := Some macOS_doc |}.

(** A service with no active device, and one with two. *)
Definition idle : Transport :=
  fun _ => {| status := 200; json := Some (JObject [("data", JArray [])]) |}.

Definition crowded : Transport :=
  fun _ =>
    {| status := 200;
       json := Some (JObject [("data", JArray
                 [JObject [("id", JNumber 123); ("name", JString "macOS")];
                  JObject [("id", JNumber 456); ("name", JString "iPad")]])]) |}.

(** A service that answers 401 and then refuses the refresh with [second]. *)
Definition expired_then (second : Response) : Transport :=
  script (fun n =>
    match n with
    | 1%nat => {| status := 401; json := None |}
    | _ => second
    end).

(** The host when the command starts. *)
Definition boot : Host := {| world := fresh; events := [] |}.

(** A logger whose owner disposes the client on one line. *)
Definition disposing_on (line : string) : Logger :=
  fun text => if String.eqb text line then Disposes else Keeps.

(** * The token store *)

Section TokenStoreFacts.

Variables defaultToken defaultRefreshToken : string.

Local Abbreviation ts := (TokenStore defaultToken defaultRefreshToken).

Lemma getToken_run w :
  getToken ts w = (Returned (access_token defaultToken w), w).
Proof. reflexivity. Qed.

Lemma getRefreshToken_run w :
  getRefreshToken ts w = (Returned (refresh_token defaultRefreshToken w), w).
Proof. reflexivity. Qed.

Lemma updateTokens_run a r w :
  updateTokens ts a r w = (Returned tt, set_storage (stored a r) w).
Proof. reflexivity. Qed.

Lemma read_both_run w :
  read_both ts w
  = (Returned (access_token defaultToken w,
               refresh_token defaultRefreshToken w), w).
Proof. reflexivity. Qed.

Lemma stored_token a r s : stored a r s !! KEY_TOKEN = Some a.
Proof.
  unfold stored. rewrite lookup_insert_ne by discriminate.
  apply lookup_insert_eq.
Qed.

Lemma stored_refresh_token a r s : stored a r s !! KEY_REFRESH_TOKEN = Some r.
Proof. unfold stored. apply lookup_insert_eq. Qed.

Lemma read_after_update a r w :
  read_both ts (set_storage (stored a r) w)
  = (Returned (a, r), set_storage (stored a r) w).
Proof.
  rewrite read_both_run. unfold access_token, refresh_token.
  cbn [storage set_storage].
  now rewrite stored_token, stored_refresh_token.
Qed.

Lemma read_times_run n w : read_times ts n w = (Returned tt, w).
Proof.
  induction n as [|n IH]; [reflexivity|].
  cbn [read_times]. unfold bind. now rewrite read_both_run.
Qed.

(** After a non-empty list of updates the state is the one the last
    update leaves, whatever was stored before. *)
Lemma update_all_last pairs a r w :
  exists w',
    update_all ts (pairs ++ [(a, r)]) w = (Returned tt, w')
    /\ storage w' !! KEY_TOKEN = Some a
    /\ storage w' !! KEY_REFRESH_TOKEN = Some r.
Proof.
  revert w. induction pairs as [|[a' r'] pairs IH]; intros w.
  - eexists. split; [reflexivity|]. cbn [storage set_storage].
    split; [apply stored_token | apply stored_refresh_token].
  - cbn [app update_all]. unfold bind at 1. rewrite updateTokens_run.
    apply IH.
Qed.

Lemma update_all_nil_storage w :
  update_all ts [] w = (Returned tt, w).
Proof. reflexivity. Qed.

End TokenStoreFacts.

(** * The pipeline of the client *)

Lemma log_run lg text w : log lg text w = (Returned tt, logged lg text w).
Proof. unfold logged, log. now destruct (lg text). Qed.

Lemma logged_storage lg text w : storage (logged lg text w) = storage w.
Proof. unfold logged, log. now destruct (lg text). Qed.

Lemma logged_calls lg text w : calls (logged lg text w) = calls w.
Proof. unfold logged, log. now destruct (lg text). Qed.

Lemma logged_keeps lg text w :
  lg text = Keeps -> logged lg text w = set_lines (lines w ++ [text]) w.
Proof. unfold logged, log. now intros ->. Qed.

Lemma logged_aborted lg text w :
  aborted w = true -> aborted (logged lg text w) = true.
Proof. unfold logged, log. now destruct (lg text). Qed.

Section Pipeline.

Variables defaultToken defaultRefreshToken : string.
Variable lg : Logger.
Variable tr : Transport.

Local Abbreviation ts := (TokenStore defaultToken defaultRefreshToken).
Local Abbreviation client := (createSetappClient defaultToken defaultRefreshToken lg).
Local Abbreviation request := (Client.request client tr).
Local Abbreviation refreshToken_via := (Client.refreshToken_via client).

(** [refreshToken], one step at a time. *)
Lemma refreshToken_via_run (rq : Request -> M Response) w :
  refreshToken_via rq w =
  match rq (refresh_request defaultRefreshToken w) w with
  | (Returned resp, w1) =>
      match json resp with
      | Some j =>
          match as_token_pair j with
          | Some (t, r) => (Returned tt, set_storage (stored t r) w1)
          | None => (Thrown TypeError, w1)
          end
      | None => (Thrown SyntaxError, w1)
      end
  | (Thrown e, w1) => (Thrown e, w1)
  | (Pending, w1) => (Pending, w1)
  end.
Proof.
  unfold Client.refreshToken_via, bind. cbn [tokenStore createSetappClient].
  rewrite getRefreshToken_run. fold (refresh_request defaultRefreshToken w).
  destruct (rq _ w) as [[resp|e|] w1]; try reflexivity.
  unfold Response_json, token_data.
  destruct (json resp) as [j|]; [|reflexivity].
  cbv beta iota delta [ret].
  destruct (as_token_pair j) as [[t r]|]; reflexivity.
Qed.

(** [request], one step at a time. *)
Lemma request_step fuel req w :
  request (S fuel) req w =
  if aborted w then (Thrown AbortError, w)
  else
    let sent := Request_init req (auth_headers (access_token defaultToken w)) in
    let w1 := set_calls (calls w ++ [sent]) w in
    let resp := tr (calls w ++ [sent]) in
    if ok resp then (Returned resp, w1)
    else if status resp =? 401 then
      match refreshToken_via (request fuel)
              (logged lg "token expired, refreshing" w1) with
      | (Returned _, w2) =>
          request fuel sent
            (logged lg "token refreshed, start resending request" w2)
      | (Thrown e, w2) => (Thrown e, w2)
      | (Pending, w2) => (Pending, w2)
      end
    else (Thrown (Error ("request error: " +:+ url req)), w1).
Proof.
  cbn [Client.request]. unfold bind at 1.
  cbn [tokenStore createSetappClient logger]. rewrite getToken_run.
  unfold bind at 1, fetch at 1.
  destruct (aborted w); [reflexivity|]. cbv zeta.
  destruct (ok _); [reflexivity|].
  destruct (status _ =? 401); [|reflexivity].
  unfold bind at 1. rewrite log_run.
  unfold bind at 1.
  destruct (Client.refreshToken_via _ _ _) as [[[]|e|] w2]; try reflexivity.
  unfold bind at 1. now rewrite log_run.
Qed.

(** More fuel does not change a promise that has settled. *)
Lemma request_fuel_mono (fuel fuel' : nat) req w :
  (fuel <= fuel')%nat ->
  fst (request fuel req w) <> Pending ->
  request fuel' req w = request fuel req w.
Proof.
  revert fuel' req w. induction fuel as [|fuel IH]; intros fuel' req w Hle Hnp.
  - now contradiction Hnp.
  - destruct fuel' as [|fuel']; [lia|].
    rewrite request_step in Hnp. rewrite !request_step.
    destruct (aborted w); [reflexivity|]. cbv zeta in *.
    destruct (ok _); [reflexivity|].
    destruct (status _ =? 401); [|reflexivity].
    rewrite refreshToken_via_run in Hnp. rewrite !refreshToken_via_run.
    set (w1 := logged lg "token expired, refreshing" _) in *.
    destruct (request fuel (refresh_request defaultRefreshToken w1) w1)
      as [[resp|e|] w2] eqn:E.
    + rewrite (IH fuel') by (lia || (rewrite E; discriminate)). rewrite E.
      destruct (json resp) as [j|]; [|reflexivity].
      destruct (as_token_pair j) as [[t r]|]; [|reflexivity].
      apply IH; [lia | exact Hnp].
    + rewrite (IH fuel') by (lia || (rewrite E; discriminate)).
      now rewrite E.
    + now contradiction Hnp.
Qed.

(** The pipeline only adds calls, after the ones already made. *)
Lemma request_calls_extend fuel req w :
  exists rest, calls (snd (request fuel req w)) = calls w ++ rest.
Proof.
  revert req w. induction fuel as [|fuel IH]; intros req w.
  - exists []. cbn. now rewrite app_nil_r.
  - rewrite request_step.
    destruct (aborted w); [exists []; cbn; now rewrite app_nil_r|]. cbv zeta.
    set (sent := Request_init req _).
    destruct (ok _); [now exists [sent]|].
    destruct (status _ =? 401); [|now exists [sent]].
    rewrite refreshToken_via_run.
    set (w1 := logged lg "token expired, refreshing" _).
    assert (Hw1 : calls w1 = calls w ++ [sent])
      by (unfold w1; now rewrite logged_calls).
    destruct (IH (refresh_request defaultRefreshToken w1) w1) as [rest1 H1].
    rewrite Hw1 in H1.
    destruct (request fuel (refresh_request defaultRefreshToken w1) w1)
      as [[resp|e|] w2]; cbn [snd] in H1.
    + destruct (json resp) as [j|];
        [|exists (sent :: rest1); cbn [snd]; now rewrite H1, <- app_assoc].
      destruct (as_token_pair j) as [[t r]|];
        [|exists (sent :: rest1); cbn [snd]; now rewrite H1, <- app_assoc].
      set (w3 := logged lg "token refreshed, start resending request" _).
      destruct (IH sent w3) as [rest2 H2].
      exists (sent :: rest1 ++ rest2). rewrite H2. unfold w3.
      rewrite logged_calls. cbn [calls set_storage]. rewrite H1.
      now rewrite <- !app_assoc.
    + exists (sent :: rest1). cbn [snd]. now rewrite H1, <- app_assoc.
    + exists (sent :: rest1). cbn [snd]. now rewrite H1, <- app_assoc.
Qed.

Lemma request_calls_length fuel req w :
  (length (calls w) <= length (calls (snd (request fuel req w))))%nat.
Proof.
  destruct (request_calls_extend fuel req w) as [rest ->].
  rewrite length_app. lia.
Qed.

(** Once the signal is aborted the pipeline rejects before any call. *)
Lemma request_aborted fuel req w :
  aborted w = true -> request (S fuel) req w = (Thrown AbortError, w).
Proof. intros H. rewrite request_step. now rewrite H. Qed.

(** [fetchActiveDevices], one step at a time. *)
Lemma fetchActiveDevices_run fuel w :
  Client.fetchActiveDevices client tr fuel w =
  match request fuel (Request_new DEVICES_URL GET None)
          (logged lg "start fetching devices." w) with
  | (Returned resp, w1) =>
      match json resp with
      | Some doc =>
          match as_device_list doc with
          | Some devices =>
              (Returned devices,
               if 0 <? Z.of_nat (length devices)
               then logged lg ("fetched devices: "
                               +:+ String.concat ", " (map name devices)) w1
               else w1)
          | None => (Thrown TypeError, w1)
          end
      | None => (Thrown SyntaxError, w1)
      end
  | (Thrown e, w1) => (Thrown e, w1)
  | (Pending, w1) => (Pending, w1)
  end.
Proof.
  unfold Client.fetchActiveDevices. unfold bind at 1.
  cbn [logger createSetappClient]. rewrite log_run. unfold bind at 1.
  destruct (request fuel _ _) as [[resp|e|] w1]; try reflexivity.
  unfold bind at 1, Response_json.
  destruct (json resp) as [doc|]; [|reflexivity].
  cbv beta iota delta [ret]. unfold bind at 1, device_data.
  destruct (as_device_list doc) as [devices|]; [|reflexivity].
  cbv beta iota delta [ret]. unfold bind at 1.
  destruct (0 <? Z.of_nat (length devices)); [|reflexivity].
  now rewrite log_run.
Qed.

(** [disconnectDeviceById], one step at a time. *)
Lemma disconnectDeviceById_run fuel id w :
  Client.disconnectDeviceById client tr fuel id w =
  match request fuel (Request_new (DEVICES_URL +:+ "/" +:+ pretty id) DELETE None)
          (logged lg ("disconnecting device of id: " +:+ pretty id) w) with
  | (Returned _, w1) => (Returned tt, logged lg "device disconnected" w1)
  | (Thrown e, w1) => (Thrown e, w1)
  | (Pending, w1) => (Pending, w1)
  end.
Proof.
  unfold Client.disconnectDeviceById. unfold bind at 1.
  cbn [logger createSetappClient]. rewrite log_run. unfold bind at 1.
  destruct (request fuel _ _) as [[resp|e|] w1]; try reflexivity.
  now rewrite log_run.
Qed.

End Pipeline.

Lemma unauthorized_not_ok resp : status resp = 401 -> ok resp = false.
Proof. unfold ok. now intros ->. Qed.

Lemma access_token_logged d lg text w :
  access_token d (logged lg text w) = access_token d w.
Proof. unfold access_token. now rewrite logged_storage. Qed.

Lemma refresh_token_logged d lg text w :
  refresh_token d (logged lg text w) = refresh_token d w.
Proof. unfold refresh_token. now rewrite logged_storage. Qed.

Lemma access_token_stored d t r w :
  access_token d (set_storage (stored t r) w) = t.
Proof.
  unfold access_token. cbn [storage set_storage]. now rewrite stored_token.
Qed.

Lemma refresh_token_stored d t r w :
  refresh_token d (set_storage (stored t r) w) = r.
Proof.
  unfold refresh_token. cbn [storage set_storage].
  now rewrite stored_refresh_token.
Qed.

(** The first version, up to the test of the response. *)
Lemma main_request_step d1 d2 lg tr fuel req w :
  let sent := Request_init req (auth_headers (access_token d1 w)) in
  let resp := tr (calls w ++ [sent]) in
  ok resp = false -> status resp <> 401 ->
  Main.request (TokenStore d1 d2) lg tr (S fuel) req w
  = (Thrown (Error ("request error: " +:+ url req)),
     set_calls (calls w ++ [sent]) w).
Proof.
  intros sent resp Hok Hst. cbn [Main.request]. unfold bind at 1.
  rewrite getToken_run. unfold bind at 1, fetch at 1. cbv zeta.
  fold sent. fold resp. rewrite Hok.
  apply Z.eqb_neq in Hst. now rewrite Hst.
Qed.

(** C5 (both versions): a response that is neither a success nor a 401
    makes [request] reject with the error whose message ends with the URL
    of the request; this one call is the only one made, the promise settles
    with any positive fuel, and the stored tokens are left as they were. *)
Theorem request_error_is_terminal d1 d2 lg tr fuel req w :
  let sent := Request_init req (auth_headers (access_token d1 w)) in
  let resp := tr (calls w ++ [sent]) in
  aborted w = false ->
  ok resp = false ->
  status resp <> 401 ->
  fails_once (Client.request (createSetappClient d1 d2 lg) tr (S fuel) req w)
    req sent w
  /\ fails_once (Main.request (TokenStore d1 d2) lg tr (S fuel) req w)
       req sent w.
Proof.
  intros sent resp Hlive Hok Hst. split.
  - rewrite request_step, Hlive. cbv zeta. fold sent. fold resp.
    rewrite Hok. apply Z.eqb_neq in Hst. rewrite Hst.
    repeat split.
  - unfold sent in *. rewrite (main_request_step d1 d2 lg tr fuel req w Hok Hst).
    repeat split.
Qed.

(** C6: when a call is answered with 401, the next call of the client is
    the refresh: a POST to the token endpoint whose body is the object with
    the refresh token of that moment, sent through [request] itself, hence
    with the [Authorization] header of the access token of that moment, the
    one the 401 has just refused. *)
Theorem refresh_goes_through_pipeline d1 d2 lg tr fuel req w :
  let token := access_token d1 w in
  let sent := Request_init req (auth_headers token) in
  let refresh :=
    {| url := "https://user-api.setapp.com/v1/token";
       method := POST;
       body := Some (JSON_stringify
                 (JObject [("refresh_token", JString (refresh_token d2 w))]));
       headers := [("Authorization", "Bearer " +:+ token);
                   ("Accept", "application/json")] |} in
  aborted w = false ->
  lg "token expired, refreshing" = Keeps ->
  status (tr (calls w ++ [sent])) = 401 ->
  exists rest,
    calls (snd (Client.request (createSetappClient d1 d2 lg) tr
                  (S (S fuel)) req w))
    = calls w ++ sent :: refresh :: rest.
Proof.
  intros token sent refresh Hlive Hlg H401.
  rewrite request_step, Hlive. cbv zeta. fold token. fold sent.
  rewrite (unauthorized_not_ok _ H401), H401. cbn [Z.eqb Pos.eqb].
  rewrite refreshToken_via_run.
  rewrite (logged_keeps _ _ _ Hlg).
  set (w1 := set_lines _ _).
  assert (Hrefresh : exists rest1,
    calls (snd (Client.request (createSetappClient d1 d2 lg) tr (S fuel)
                  (refresh_request d2 w1) w1))
    = calls w ++ sent :: refresh :: rest1).
  { rewrite request_step. cbn [aborted w1 set_lines set_calls]. rewrite Hlive.
    cbv zeta.
    replace (Request_init (refresh_request d2 w1) (auth_headers (access_token d1 w1)))
      with refresh by reflexivity.
    assert (Hcalls : calls w1 ++ [refresh] = calls w ++ [sent; refresh])
      by (cbn [calls w1 set_lines set_calls]; now rewrite <- app_assoc).
    set (ws := set_calls (calls w1 ++ [refresh]) w1).
    assert (Hws : calls ws = calls w ++ [sent; refresh]) by exact Hcalls.
    destruct (ok _); [exists []; exact Hws|].
    destruct (status _ =? 401); [|exists []; exact Hws].
    rewrite refreshToken_via_run.
    set (w2 := logged lg _ ws).
    assert (Hw2 : calls w2 = calls w ++ [sent; refresh])
      by (unfold w2; now rewrite logged_calls).
    pose proof (request_calls_extend d1 d2 lg tr fuel (refresh_request d2 w2) w2)
      as [r1 Hr1].
    destruct (Client.request _ tr fuel (refresh_request d2 w2) w2)
      as [[resp|e|] w3]; cbn [snd] in Hr1.
    - assert (Hw3 : calls w3 = calls w ++ sent :: refresh :: r1)
        by (rewrite Hr1, Hw2, <- app_assoc; reflexivity).
      destruct (json resp) as [j|]; [|exists r1; exact Hw3].
      destruct (as_token_pair j) as [[t r]|]; [|exists r1; exact Hw3].
      set (w4 := logged lg _ _).
      pose proof (request_calls_extend d1 d2 lg tr fuel refresh w4) as [r2 Hr2].
      exists (r1 ++ r2). rewrite Hr2. unfold w4. rewrite logged_calls.
      cbn [calls set_storage]. rewrite Hw3, <- app_assoc. reflexivity.
    - exists r1. cbn [snd]. rewrite Hr1, Hw2, <- app_assoc. reflexivity.
    - exists r1. cbn [snd]. rewrite Hr1, Hw2, <- app_assoc. reflexivity. }
  destruct Hrefresh as [rest1 Hrefresh].
  destruct (Client.request _ tr (S fuel) (refresh_request d2 w1) w1)
    as [[resp|e|] w2]; cbn [snd] in Hrefresh.
  - destruct (json resp) as [j|]; [|exists rest1; exact Hrefresh].
    destruct (as_token_pair j) as [[t r]|]; [|exists rest1; exact Hrefresh].
    set (w3 := logged lg _ _).
    pose proof (request_calls_extend d1 d2 lg tr (S fuel) sent w3) as [r2 Hr2].
    exists (rest1 ++ r2). rewrite Hr2. unfold w3. rewrite logged_calls.
    cbn [calls set_storage]. rewrite Hrefresh, <- app_assoc. reflexivity.
  - exists rest1. exact Hrefresh.
  - exists rest1. exact Hrefresh.
Qed.

(** The run of [request] through one refresh, in full. *)
Lemma request_refresh_run d1 d2 lg tr fuel req w j t r :
  let first := Request_init req (auth_headers (access_token d1 w)) in
  let refresh :=
    Request_init (refresh_request d2 w) (auth_headers (access_token d1 w)) in
  let retried := Request_init req (auth_headers t) in
  aborted w = false ->
  (forall text, lg text = Keeps) ->
  status (tr (calls w ++ [first])) = 401 ->
  ok (tr (calls w ++ [first; refresh])) = true ->
  json (tr (calls w ++ [first; refresh])) = Some j ->
  as_token_pair j = Some (t, r) ->
  ok (tr (calls w ++ [first; refresh; retried])) = true ->
  Client.request (createSetappClient d1 d2 lg) tr (S (S fuel)) req w
  = (Returned (tr (calls w ++ [first; refresh; retried])),
     {| storage := stored t r (storage w);
        aborted := false;
        calls := calls w ++ [first; refresh; retried];
        lines := lines w ++ ["token expired, refreshing";
                             "token refreshed, start resending request"] |}).
Proof.
  intros first refresh retried Hlive Hlg H401 Hok2 Hjson Hpair Hok3.
  rewrite request_step, Hlive. cbv zeta. fold first.
  rewrite (unauthorized_not_ok _ H401), H401. cbn [Z.eqb Pos.eqb].
  rewrite refreshToken_via_run, (logged_keeps _ _ _ (Hlg _)).
  set (w1 := set_lines _ _).
  rewrite request_step. cbn [aborted w1 set_lines set_calls]. rewrite Hlive.
  cbv zeta.
  replace (Request_init (refresh_request d2 w1) (auth_headers (access_token d1 w1)))
    with refresh by reflexivity.
  replace (calls w1 ++ [refresh]) with (calls w ++ [first; refresh])
    by (cbn [calls w1 set_lines set_calls]; now rewrite <- app_assoc).
  rewrite Hok2, Hjson, Hpair, (logged_keeps _ _ _ (Hlg _)).
  set (w3 := set_lines _ _).
  rewrite request_step. cbn [aborted w3 w1 set_lines set_calls set_storage].
  rewrite Hlive. cbv zeta.
  replace (Request_init first (auth_headers (access_token d1 w3)))
    with retried
    by (unfold retried, w3; unfold access_token at 1;
        cbn [storage set_lines set_storage]; now rewrite stored_token).
  replace (calls w3 ++ [retried]) with (calls w ++ [first; refresh; retried])
    by (cbn [calls w3 w1 set_lines set_calls set_storage];
        now rewrite <- app_assoc).
  rewrite Hok3. f_equal.
  unfold set_calls, w3, set_lines, set_storage, w1. cbn.
  now rewrite Hlive, <- app_assoc.
Qed.

(** C1: a 401, then a successful refresh, then a successful retry.
    [request] makes three calls, in this order: the request with the old
    token, the POST to the token endpoint, and the request again; the third
    call carries the [Authorization] header of the refreshed token [t], read
    from the store, which holds the refreshed pair from then on, and the
    promise fulfils with the third response.  [fetchActiveDevices] makes the
    same three calls and returns the devices of the third response. *)
Theorem refresh_then_retry d1 d2 lg tr fuel req w j t r :
  let client := createSetappClient d1 d2 lg in
  let first := Request_init req (auth_headers (access_token d1 w)) in
  let refresh :=
    Request_init (refresh_request d2 w) (auth_headers (access_token d1 w)) in
  let retried := Request_init req (auth_headers t) in
  let last := tr (calls w ++ [first; refresh; retried]) in
  aborted w = false ->
  (forall text, lg text = Keeps) ->
  status (tr (calls w ++ [first])) = 401 ->
  ok (tr (calls w ++ [first; refresh])) = true ->
  json (tr (calls w ++ [first; refresh])) = Some j ->
  as_token_pair j = Some (t, r) ->
  ok last = true ->
  (let run := Client.request client tr (S (S fuel)) req w in
   fst run = Returned last
   /\ calls (snd run) = calls w ++ [first; refresh; retried]
   /\ url refresh = "https://user-api.setapp.com/v1/token"
   /\ method refresh = POST
   /\ headers retried
      = [("Authorization", "Bearer " +:+ t); ("Accept", "application/json")]
   /\ read_both (TokenStore d1 d2) (snd run) = (Returned (t, r), snd run))
  /\ (req = Request_new "https://user-api.setapp.com/v1/devices" GET None ->
      let run := Client.fetchActiveDevices client tr (S (S fuel)) w in
      calls (snd run) = calls w ++ [first; refresh; retried]
      /\ forall doc devices,
           json last = Some doc -> as_device_list doc = Some devices ->
           fst run = Returned devices).
Proof.
  intros client first refresh retried last Hlive Hlg H401 Hok2 Hjson Hpair Hok3.
  split.
  - unfold client.
    rewrite (request_refresh_run d1 d2 lg tr fuel req w j t r
               Hlive Hlg H401 Hok2 Hjson Hpair Hok3).
    cbn [fst snd calls]. repeat split.
    rewrite read_both_run. unfold access_token, refresh_token. cbn [storage].
    now rewrite stored_token, stored_refresh_token.
  - intros ->. cbv zeta. unfold client.
    rewrite fetchActiveDevices_run, (logged_keeps _ _ _ (Hlg _)).
    set (w0 := set_lines _ w). unfold DEVICES_URL.
    rewrite (request_refresh_run d1 d2 lg tr fuel _ w0 j t r
               Hlive Hlg H401 Hok2 Hjson Hpair Hok3).
    change (calls w0) with (calls w).
    change (access_token d1 w0) with (access_token d1 w).
    change (refresh_request d2 w0) with (refresh_request d2 w).
    fold first refresh retried last.
    destruct (json last) as [doc|] eqn:Hdoc; [|now split].
    destruct (as_device_list doc) as [devices|] eqn:Hdev.
    + split.
      * cbn [snd]. destruct (0 <? _); [rewrite logged_calls|]; reflexivity.
      * intros doc' devices' [= <-] Hd. rewrite Hdev in Hd.
        now injection Hd as ->.
    + split; [reflexivity|].
      intros doc' devices' [= <-] Hd. rewrite Hdev in Hd. discriminate.
Qed.

(** * The stored tokens along the runs of the client *)

Section Invariant.

Variables defaultToken defaultRefreshToken : string.
Variable lg : Logger.
Variable tr : Transport.

Local Abbreviation client := (createSetappClient defaultToken defaultRefreshToken lg).
Local Abbreviation request := (Client.request client tr).
Local Abbreviation inv := (nonempty_tokens defaultToken defaultRefreshToken).

(** A response the pipeline returns is an answer of the transport. *)
Lemma request_returns_answer fuel req w resp :
  fst (request fuel req w) = Returned resp -> exists history, resp = tr history.
Proof.
  revert req w. induction fuel as [|fuel IH]; intros req w; [discriminate|].
  rewrite request_step.
  destruct (aborted w); [discriminate|]. cbv zeta.
  destruct (ok _); [intros [= <-]; eauto|].
  destruct (status _ =? 401); [|discriminate].
  rewrite refreshToken_via_run.
  destruct (Client.request _ _ fuel (refresh_request _ _) _) as [[resp'|e|] w2];
    try discriminate.
  destruct (json resp') as [j|]; [|discriminate].
  destruct (as_token_pair j) as [[t r]|]; [|discriminate].
  apply IH.
Qed.

Lemma inv_logged text w : inv w -> inv (logged lg text w).
Proof.
  unfold nonempty_tokens. now rewrite access_token_logged, refresh_token_logged.
Qed.

Lemma inv_stored t r w : t <> "" -> r <> "" -> inv (set_storage (stored t r) w).
Proof.
  unfold nonempty_tokens. now rewrite access_token_stored, refresh_token_stored.
Qed.

Hypothesis Hsupplies : supplies_nonempty tr.

Lemma request_keeps_nonempty fuel req w :
  inv w -> inv (snd (request fuel req w)).
Proof.
  revert req w. induction fuel as [|fuel IH]; intros req w Hw; [exact Hw|].
  rewrite request_step.
  destruct (aborted w); [exact Hw|]. cbv zeta.
  destruct (ok _); [exact Hw|].
  destruct (status _ =? 401); [|exact Hw].
  rewrite refreshToken_via_run.
  set (w1 := logged lg "token expired, refreshing" _).
  assert (Hw1 : inv w1) by (apply inv_logged; exact Hw).
  pose proof (IH (refresh_request defaultRefreshToken w1) w1 Hw1) as Hw2.
  pose proof (request_returns_answer fuel
                (refresh_request defaultRefreshToken w1) w1) as Hans.
  destruct (Client.request _ _ fuel (refresh_request _ w1) w1)
    as [[resp|e|] w2]; cbn [fst snd] in *; try exact Hw2.
  destruct (Hans resp eq_refl) as [history ->].
  destruct (json (tr history)) as [j|] eqn:Hj; [|exact Hw2].
  destruct (as_token_pair j) as [[t r]|] eqn:Hp; [|exact Hw2].
  destruct (Hsupplies history j t r Hj Hp) as [Ht Hr].
  apply IH, inv_logged, inv_stored; assumption.
Qed.

Lemma perform_keeps_nonempty fuel op w :
  inv w -> inv (perform client tr fuel op w).
Proof.
  intros Hw. destruct op as [|id]; unfold perform.
  - rewrite fetchActiveDevices_run.
    pose proof (request_keeps_nonempty fuel (Request_new DEVICES_URL GET None)
                  _ (inv_logged "start fetching devices." w Hw)) as H1.
    destruct (Client.request _ _ fuel _ _) as [[resp|e|] w1];
      cbn [snd] in *; try exact H1.
    destruct (json resp) as [doc|]; [|exact H1].
    destruct (as_device_list doc) as [devices|]; [|exact H1].
    cbn [snd]. destruct (0 <? _); [apply inv_logged|]; exact H1.
  - rewrite disconnectDeviceById_run.
    pose proof (request_keeps_nonempty fuel
                  (Request_new (DEVICES_URL +:+ "/" +:+ pretty id) DELETE None)
                  _ (inv_logged ("disconnecting device of id: " +:+ pretty id)
                       w Hw)) as H1.
    destruct (Client.request _ _ fuel _ _) as [[resp|e|] w1];
      cbn [snd] in *; try exact H1.
    apply inv_logged; exact H1.
Qed.

Lemma session_keeps_nonempty fuel ops w :
  inv w -> inv (session client tr fuel ops w).
Proof.
  revert w. induction ops as [|op ops IH]; intros w Hw; [exact Hw|].
  apply IH, perform_keeps_nonempty, Hw.
Qed.

End Invariant.

Lemma nonempty_at_start d1 d2 w :
  d1 <> "" -> d2 <> "" ->
  (forall k, storage w !! k <> Some "") ->
  nonempty_tokens d1 d2 w.
Proof.
  intros H1 H2 Hw. unfold nonempty_tokens, access_token, refresh_token.
  split.
  - destruct (storage w !! KEY_TOKEN) as [v|] eqn:E; cbn; [|exact H1].
    intros ->. exact (Hw _ E).
  - destruct (storage w !! KEY_REFRESH_TOKEN) as [v|] eqn:E; cbn; [|exact H2].
    intros ->. exact (Hw _ E).
Qed.



(** * Termination of the pipeline *)

Section Termination.

Variables defaultToken defaultRefreshToken : string.
Variable lg : Logger.
Variable tr : Transport.

Local Abbreviation client := (createSetappClient defaultToken defaultRefreshToken lg).
Local Abbreviation request := (Client.request client tr).

(** Against a transport that answers 401 to everything, every refresh is
    a call that needs a refresh: the recursion never comes back. *)
Lemma request_all_401 :
  (forall text, lg text = Keeps) ->
  (forall history, status (tr history) = 401) ->
  forall fuel req w, aborted w = false -> fst (request fuel req w) = Pending.
Proof.
  intros Hlg H401. induction fuel as [|fuel IH]; intros req w Hlive;
    [reflexivity|].
  rewrite request_step, Hlive. cbv zeta.
  rewrite (unauthorized_not_ok _ (H401 _)), H401. cbn [Z.eqb Pos.eqb].
  rewrite refreshToken_via_run, (logged_keeps _ _ _ (Hlg _)).
  set (w1 := set_lines _ _).
  pose proof (IH (refresh_request defaultRefreshToken w1) w1 Hlive) as H.
  destruct (Client.request _ _ fuel _ w1) as [[resp|e|] w2];
    cbn [fst] in H; try discriminate.
  reflexivity.
Qed.

(** When no call after the [N]-th is answered with 401, each level of the
    recursion uses up one of the calls that can be: fuel for the calls
    that are left is enough. *)
Lemma request_settles_within (N : nat) :
  (forall history, (N < length history)%nat -> status (tr history) <> 401) ->
  forall (k : nat) req w,
    (N - length (calls w) <= k)%nat ->
    fst (request (S k) req w) <> Pending.
Proof.
  intros Hlate. induction k as [|k IH]; intros req w Hk;
    rewrite request_step;
    (destruct (aborted w); [discriminate|]); cbv zeta;
    set (sent := Request_init req _);
    (destruct (ok _); [discriminate|]);
    (destruct (status _ =? 401) eqn:H401; [|discriminate]);
    apply Z.eqb_eq in H401;
    assert (Hlen : (length (calls w ++ [sent]) <= N)%nat)
      by (destruct (le_lt_dec (length (calls w ++ [sent])) N) as [?|Hgt];
          [assumption | now destruct (Hlate _ Hgt)]);
    rewrite length_app in Hlen; cbn [length] in Hlen; [lia|].
  rewrite refreshToken_via_run.
  set (w1 := logged lg "token expired, refreshing" _).
  assert (Hw1 : length (calls w1) = S (length (calls w))).
  { unfold w1. rewrite logged_calls. cbn [calls set_calls].
    rewrite length_app. cbn [length]. lia. }
  pose proof (IH (refresh_request defaultRefreshToken w1) w1) as H1.
  pose proof (request_calls_length defaultToken defaultRefreshToken lg tr (S k)
                (refresh_request defaultRefreshToken w1) w1) as Hgrow.
  destruct (Client.request _ _ (S k) _ w1) as [[resp|e|] w2];
    cbn [fst snd] in *; [|discriminate|apply H1; lia].
  destruct (json resp) as [j|]; [|discriminate].
  destruct (as_token_pair j) as [[t r]|]; [|discriminate].
  apply IH. rewrite logged_calls. cbn [calls set_storage]. lia.
Qed.

End Termination.

(** The service that refuses every token keeps the client busy for ever:
    each refresh succeeds and each retry is refused. *)
Lemma request_refused_for_ever d1 d2 fuel req w :
  aborted w = false ->
  Nat.even (length (calls w)) = true ->
  fst (Client.request (createSetappClient d1 d2 sink) (script refusing)
         fuel req w) = Pending.
Proof.
  revert req w. induction fuel as [|fuel IH]; intros req w Hlive Heven;
    [reflexivity|].
  assert (Hodd : forall c, Nat.odd (length (calls w ++ [c])) = true).
  { intros c. rewrite length_app. cbn [length].
    rewrite Nat.add_1_r, Nat.odd_succ. exact Heven. }
  rewrite request_step, Hlive. cbv zeta. set (sent := Request_init req _).
  assert (H1 : script refusing (calls w ++ [sent])
               = {| status := 401; json := None |})
    by (unfold script, refusing; now rewrite Hodd).
  rewrite H1.
  change (ok {| status := 401; json := None |}) with false.
  change (status {| status := 401; json := None |} =? 401) with true.
  cbv iota.
  rewrite refreshToken_via_run, (logged_keeps sink _ _ eq_refl).
  set (w1 := set_lines _ _).
  destruct fuel as [|fuel]; [reflexivity|].
  rewrite request_step. cbn [aborted w1 set_lines set_calls]. rewrite Hlive.
  cbv zeta. set (refresh := Request_init (refresh_request d2 w1) _).
  assert (H2 : script refusing (calls w1 ++ [refresh])
               = {| status := 200; json := Some (token_doc "11" "22") |}).
  { unfold script, refusing. cbn [calls w1 set_lines set_calls].
    rewrite !length_app. cbn [length].
    rewrite Nat.add_1_r, Nat.odd_succ, Nat.add_1_r, Nat.even_succ.
    rewrite <- Nat.negb_even. now rewrite Heven. }
  rewrite H2.
  change (ok {| status := 200; json := Some (token_doc "11" "22") |}) with true.
  cbv iota. cbn [json].
  change (as_token_pair (token_doc "11" "22")) with (Some ("11", "22")).
  cbv iota. rewrite (logged_keeps sink _ _ eq_refl).
  apply IH.
  - exact Hlive.
  - cbn [calls w1 set_lines set_calls set_storage]. rewrite !length_app.
    cbn [length]. rewrite Nat.add_1_r, Nat.even_succ, Nat.add_1_r, Nat.odd_succ.
    exact Heven.
Qed.

(** C4, as amended: the recursion on 401 has no bound.  While the client
    is not disposed, a transport that answers 401 to every call keeps
    [request] from ever settling; and when the transport answers 401 only
    finitely often (never after its [N]-th call), [request] settles. *)
Theorem retry_has_no_bound d1 d2 lg tr req w :
  let run := fun fuel => Client.request (createSetappClient d1 d2 lg) tr fuel req w in
  (aborted w = false ->
   (forall text, lg text = Keeps) ->
   (forall history, status (tr history) = 401) ->
   never_settles run)
  /\ (forall N : nat,
        (forall history, (N < length history)%nat -> status (tr history) <> 401) ->
        settles run).
Proof.
  intros run. split.
  - intros Hlive Hlg H401 fuel. now apply request_all_401.
  - intros N Hlate. exists (S N). apply (request_settles_within d1 d2 lg tr N Hlate).
    lia.
Qed.

(** C4 fails as stated: with the service that refuses every token, each
    401 is followed at once by a success, so no run of 401s has more than
    one element, and [request] does not settle. *)
Lemma refused_after_every_refresh :
  (forall n, status (refusing n) = 401 -> ok (refusing (S n)) = true)
  /\ (forall n, exists m, (n <= m)%nat /\ status (refusing m) <> 401)
  /\ never_settles (fun fuel =>
       Client.request (createSetappClient "t0" "r0" sink) (script refusing)
         fuel devices_request fresh).
Proof.
  assert (H : forall n, status (refusing n) = 401 -> ok (refusing (S n)) = true).
  { intros n. unfold refusing. rewrite Nat.odd_succ, <- Nat.negb_odd.
    destruct (Nat.odd n); [reflexivity | discriminate]. }
  split; [exact H|]. split.
  - intros n. destruct (Z.eq_dec (status (refusing n)) 401) as [E|E].
    + exists (S n). split; [lia|]. specialize (H n E).
      intros E'. now rewrite (unauthorized_not_ok _ E') in H.
    + exists n. split; [lia | exact E].
  - intros fuel. now apply request_refused_for_ever.
Qed.

(** * The two versions of the pipeline *)

(** C2, at the three answers of the test "refresh token": after the
    refresh the first version sends the refresh request a second time,
    where the client sends the request it was given. *)
Theorem first_version_resends_the_refresh :
  let inline := Main.request (TokenStore "t0" "r0") sink
                  (expired_once "11" "22") 3 devices_request fresh in
  let class := Client.request (createSetappClient "t0" "r0" sink)
                 (expired_once "11" "22") 3 devices_request fresh in
  map (fun c => (method c, url c)) (calls (snd inline))
  = [(GET, "https://user-api.setapp.com/v1/devices");
     (POST, "https://user-api.setapp.com/v1/token");
     (POST, "https://user-api.setapp.com/v1/token")]
  /\ map (fun c => (method c, url c)) (calls (snd class))
     = [(GET, "https://user-api.setapp.com/v1/devices");
        (POST, "https://user-api.setapp.com/v1/token");
        (GET, "https://user-api.setapp.com/v1/devices")]
  /\ calls (snd inline) <> calls (snd class).
Proof. vm_compute. repeat split. discriminate. Qed.

(** * Disposal *)

(** If the client is disposed by the time [request] settles, it has
    rejected with [AbortError]: inside the pipeline every line of the
    logger is followed by a call. *)
Lemma request_disposed_rejects d1 d2 lg tr fuel req w :
  let run := Client.request (createSetappClient d1 d2 lg) tr fuel req w in
  fst run <> Pending -> aborted (snd run) = true -> fst run = Thrown AbortError.
Proof.
  cbv zeta. revert req w.
  induction fuel as [|fuel IH]; intros req w; [now intros H|].
  rewrite request_step.
  destruct (aborted w) eqn:Hw; [reflexivity|]. cbv zeta.
  destruct (ok _); [cbn [snd aborted set_calls]; congruence|].
  destruct (status _ =? 401); [|cbn [snd aborted set_calls]; congruence].
  rewrite refreshToken_via_run.
  set (w1 := logged lg "token expired, refreshing" _).
  pose proof (IH (refresh_request d2 w1) w1) as H1.
  destruct (Client.request _ tr fuel (refresh_request d2 w1) w1)
    as [[resp|e|] w2]; cbn [fst snd] in H1.
  - assert (Hw2 : aborted w2 = false).
    { destruct (aborted w2); [|reflexivity].
      now discriminate H1. }
    destruct (json resp) as [j|]; [|cbn [snd]; congruence].
    destruct (as_token_pair j) as [[t r]|]; [|cbn [snd]; congruence].
    apply IH.
  - cbn [fst snd]. intros _ Hab. apply H1; [discriminate | exact Hab].
  - now intros H.
Qed.

(** A disposal met on the way is not waited for: when a run of [request]
    leaves the client disposed, one more unit of fuel shows the promise
    rejected with [AbortError]. *)
Lemma request_disposed_settles d1 d2 lg tr fuel req w :
  aborted (snd (Client.request (createSetappClient d1 d2 lg) tr fuel req w)) = true ->
  fst (Client.request (createSetappClient d1 d2 lg) tr (S fuel) req w)
  = Thrown AbortError.
Proof.
  revert req w. induction fuel as [|fuel IH]; intros req w.
  - intros Hw. rewrite request_aborted; [reflexivity | exact Hw].
  - rewrite (request_step _ _ _ _ (S fuel) req w), (request_step _ _ _ _ fuel req w).
    destruct (aborted w) eqn:Hw; [reflexivity|]. cbv zeta.
    destruct (ok _); [cbn [snd aborted set_calls]; congruence|].
    destruct (status _ =? 401); [|cbn [snd aborted set_calls]; congruence].
    rewrite !refreshToken_via_run.
    set (w1 := logged lg "token expired, refreshing" _).
    pose proof (IH (refresh_request d2 w1) w1) as Hnext.
    pose proof (request_disposed_rejects d1 d2 lg tr fuel
                  (refresh_request d2 w1) w1) as Hrej.
    pose proof (request_fuel_mono d1 d2 lg tr fuel (S fuel)
                  (refresh_request d2 w1) w1 (Nat.le_succ_diag_r fuel)) as Hmono.
    cbv zeta in Hrej.
    destruct (Client.request _ tr fuel (refresh_request d2 w1) w1)
      as [[resp|e|] w2]; cbn [fst snd] in *.
    + rewrite Hmono by discriminate.
      assert (Hw2 : aborted w2 = false).
      { destruct (aborted w2); [|reflexivity]. now discriminate Hrej. }
      destruct (json resp) as [j|]; [|cbn [snd]; congruence].
      destruct (as_token_pair j) as [[t r]|]; [|cbn [snd]; congruence].
      apply IH.
    + rewrite Hmono by discriminate. intros Hab.
      now rewrite Hrej by (discriminate || exact Hab).
    + intros Hab. specialize (Hnext Hab).
      destruct (Client.request _ tr (S fuel) (refresh_request d2 w1) w1)
        as [[resp|e|] w2']; cbn [fst] in Hnext; try discriminate.
      now injection Hnext as ->.
Qed.



(** * The claims on the token store *)

(** C7: [updateTokens(a, r)] followed at once by the two reads yields the
    pair [(a, r)], whatever was stored before and whatever the defaults. *)
Theorem update_then_read d1 d2 a r w :
  let ts := TokenStore d1 d2 in
  fst ((do! updateTokens ts a r in read_both ts) w) = Returned (a, r).
Proof.
  cbv zeta. unfold bind. rewrite updateTokens_run, read_after_update.
  reflexivity.
Qed.

(** C8: with nothing persisted under the two keys, the reads return the
    defaults; after any number of [updateTokens] calls they return the
    pair of the last call. *)
Theorem last_write_wins d1 d2 pairs w :
  let ts := TokenStore d1 d2 in
  storage w !! KEY_TOKEN = None ->
  storage w !! KEY_REFRESH_TOKEN = None ->
  fst ((do! update_all ts pairs in read_both ts) w)
  = Returned (List.last pairs (d1, d2)).
Proof.
  cbv zeta. intros Ht Hr.
  destruct pairs as [|p pairs] using rev_ind.
  - unfold bind. rewrite update_all_nil_storage, read_both_run.
    unfold access_token, refresh_token. now rewrite Ht, Hr.
  - destruct p as [a r]. rewrite last_last.
    destruct (update_all_last d1 d2 pairs a r w) as (w' & Hrun & Ha & Hb).
    unfold bind. rewrite Hrun, read_both_run.
    unfold access_token, refresh_token. now rewrite Ha, Hb.
Qed.

(** C10: a read returns the stored value whenever one is stored, the empty
    string included, and the default only when none is; after
    [updateTokens("", "")] every later read returns the empty string. *)
Theorem stored_empty_string_is_returned d1 d2 w (n : nat) :
  let ts := TokenStore d1 d2 in
  (forall v, storage w !! KEY_TOKEN = Some v -> fst (getToken ts w) = Returned v)
  /\ (storage w !! KEY_TOKEN = None -> fst (getToken ts w) = Returned d1)
  /\ (forall v, storage w !! KEY_REFRESH_TOKEN = Some v ->
        fst (getRefreshToken ts w) = Returned v)
  /\ (storage w !! KEY_REFRESH_TOKEN = None ->
        fst (getRefreshToken ts w) = Returned d2)
  /\ fst ((do! updateTokens ts "" "" in
           do! read_times ts n in
           read_both ts) w) = Returned ("", "").
Proof.
  cbv zeta. rewrite getToken_run, getRefreshToken_run.
  unfold access_token, refresh_token. repeat split.
  - now intros v ->.
  - now intros ->.
  - now intros v ->.
  - now intros ->.
  - unfold bind. rewrite updateTokens_run, read_times_run, read_after_update.
    reflexivity.
Qed.

(** * The tests of the repository, run on the model *)

(** "update tokens' value" *)
Example test_update_tokens :
  let ts := TokenStore "__default_token__" "__default_refresh_token__" in
  fst (read_both ts fresh)
  = Returned ("__default_token__", "__default_refresh_token__")
  /\ fst ((do! updateTokens ts "__tk__" "__rtk__" in read_both ts) fresh)
     = Returned ("__tk__", "__rtk__")
  /\ fst ((do! updateTokens ts "__tk__" "__rtk__" in
           do! updateTokens ts "__tk_2__" "__rtk_2__" in
           read_both ts) fresh)
     = Returned ("__tk_2__", "__rtk_2__").
Proof. vm_compute. repeat split. Qed.

(** "fetch active devices" *)
Example test_fetch_active_devices :
  let run := Client.fetchActiveDevices setapp accepting 1 fresh in
  fst run = Returned [{| id := 123; name := "macOS" |}]
  /\ calls (snd run)
     = [ {| url := "https://user-api.setapp.com/v1/devices"; method := GET;
            body := None;
            headers := [("Authorization", "Bearer __token__");
                        ("Accept", "application/json")] |} ].
Proof. vm_compute. split; reflexivity. Qed.

(** "refresh token": three calls, and with the stub store the header of
    the third one is the one of the first. *)
Example test_refresh_token :
  let run := Client.fetchActiveDevices setapp (expired_once "11" "22") 2 fresh in
  fst run = Returned [{| id := 123; name := "macOS" |}]
  /\ map url (calls (snd run))
     = ["https://user-api.setapp.com/v1/devices";
        "https://user-api.setapp.com/v1/token";
        "https://user-api.setapp.com/v1/devices"]
  /\ map headers (calls (snd run))
     = repeat [("Authorization", "Bearer __token__");
               ("Accept", "application/json")] 3.
Proof. vm_compute. repeat split. Qed.

(** "unexpected fetch error" *)
Example test_unexpected_fetch_error :
  fst (Client.fetchActiveDevices setapp broken 1 fresh)
  = Thrown (Error "request error: https://user-api.setapp.com/v1/devices").
Proof. reflexivity. Qed.

(** "disconnect device by ID" *)
Example test_disconnect_device_by_id :
  let run := Client.disconnectDeviceById setapp accepting 1 111 fresh in
  fst run = Returned tt
  /\ calls (snd run)
     = [ {| url := "https://user-api.setapp.com/v1/devices/111";
            method := DELETE; body := None;
            headers := [("Authorization", "Bearer __token__");
                        ("Accept", "application/json")] |} ].
Proof. vm_compute. split; reflexivity. Qed.

(** "disposing": [dispose] is called while the first [await] of the call
    is pending, and the call rejects. *)
Example test_disposing :
  let client := {| tokenStore := stubStore;
                   logger := disposing_on "start fetching devices." |} in
  Client.fetchActiveDevices client accepting 1 fresh
  = (Thrown AbortError,
     {| storage := ∅; aborted := true; calls := [];
        lines := ["start fetching devices."] |}).
Proof. reflexivity. Qed.

(** * The theorems at the scenarios of the tests *)

Lemma expired_once_supplies_nonempty : supplies_nonempty (expired_once "11" "22").
Proof.
  intros history doc t r. unfold expired_once, script.
  destruct (length history) as [|[|[|n]]]; cbn [json];
    intros [= <-]; vm_compute; intros [= <- <-] || discriminate.
  all: split; discriminate.
Qed.

(** C1 at the test "refresh token", with the real token store. *)
Lemma refresh_then_retry_witness :
  let client := createSetappClient "t0" "r0" sink in
  let run := Client.request client (expired_once "11" "22") 2 devices_request fresh in
  fst run = Returned {| status := 200; json := Some macOS_doc |}
  /\ length (calls (snd run)) = 3%nat
  /\ read_both (TokenStore "t0" "r0") (snd run) = (Returned ("11", "22"), snd run)
  /\ fst (Client.fetchActiveDevices client (expired_once "11" "22") 2 fresh)
     = Returned [{| id := 123; name := "macOS" |}].
Proof.
  destruct (refresh_then_retry "t0" "r0" sink (expired_once "11" "22") 0%nat
              devices_request fresh (token_doc "11" "22") "11" "22"
              eq_refl (fun _ => eq_refl) eq_refl eq_refl eq_refl eq_refl eq_refl)
    as [(H1 & H2 & _ & _ & _ & H3) H4].
  destruct (H4 eq_refl) as [_ H5].
  split; [exact H1|]. split; [now rewrite H2|]. split; [exact H3|].
  exact (H5 macOS_doc _ eq_refl eq_refl).
Defined.


(** C4, as amended: the service that always answers 401, and the one
    that never does. *)
Lemma retry_has_no_bound_witness :
  never_settles (fun fuel =>
    Client.request (createSetappClient "t0" "r0" sink) unauthorized fuel
      devices_request fresh)
  /\ settles (fun fuel =>
       Client.request (createSetappClient "t0" "r0" sink) accepting fuel
         devices_request fresh).
Proof.
  split.
  - apply (proj1 (retry_has_no_bound "t0" "r0" sink unauthorized
                    devices_request fresh));
      [reflexivity | intros text; reflexivity | intros history; reflexivity].
  - apply (proj2 (retry_has_no_bound "t0" "r0" sink accepting
                    devices_request fresh) 0%nat).
    intros history _. discriminate.
Defined.

(** C5 at the test "unexpected fetch error". *)
Lemma request_error_is_terminal_witness :
  let sent := Request_init devices_request (auth_headers "t0") in
  fails_once (Client.request (createSetappClient "t0" "r0" sink) broken 1
                devices_request fresh) devices_request sent fresh
  /\ fails_once (Main.request (TokenStore "t0" "r0") sink broken 1
                   devices_request fresh) devices_request sent fresh.
Proof.
  apply (request_error_is_terminal "t0" "r0" sink broken 0%nat devices_request fresh);
    [reflexivity | reflexivity | discriminate].
Defined.

(** C6 at the test "refresh token". *)
Lemma refresh_goes_through_pipeline_witness :
  exists rest,
    calls (snd (Client.request (createSetappClient "t0" "r0" sink)
                  (expired_once "11" "22") 2 devices_request fresh))
    = [ {| url := "https://user-api.setapp.com/v1/devices"; method := GET;
           body := None;
           headers := [("Authorization", "Bearer t0");
                       ("Accept", "application/json")] |};
        {| url := "https://user-api.setapp.com/v1/token"; method := POST;
           body := Some (JSON_stringify
                     (JObject [("refresh_token", JString "r0")]));
           headers := [("Authorization", "Bearer t0");
                       ("Accept", "application/json")] |} ] ++ rest.
Proof.
  destruct (refresh_goes_through_pipeline "t0" "r0" sink (expired_once "11" "22")
              0%nat devices_request fresh eq_refl eq_refl eq_refl) as [rest H].
  exists rest. exact H.
Defined.

(** C8: two updates on an empty storage. *)
Lemma last_write_wins_witness :
  let ts := TokenStore "__default_token__" "__default_refresh_token__" in
  fst ((do! update_all ts [("__tk__", "__rtk__"); ("__tk_2__", "__rtk_2__")] in
        read_both ts) fresh)
  = Returned ("__tk_2__", "__rtk_2__").
Proof.
  apply (last_write_wins "__default_token__" "__default_refresh_token__"
           [("__tk__", "__rtk__"); ("__tk_2__", "__rtk_2__")] fresh);
    reflexivity.
Defined.


(** C10: the empty string, once stored, is what a read returns. *)
Lemma stored_empty_string_is_returned_witness :
  let w := set_storage (stored "" "") fresh in
  fst (getToken (TokenStore "t0" "r0") w) = Returned ""
  /\ fst (getRefreshToken (TokenStore "t0" "r0") w) = Returned "".
Proof.
  destruct (stored_empty_string_is_returned "t0" "r0"
              (set_storage (stored "" "") fresh) 0%nat)
    as (H1 & _ & H2 & _).
  split; [apply H1 | apply H2]; vm_compute; reflexivity.
Defined.

(** * Further properties of the code *)

(** ** The token store *)

(** X1: [updateTokens] writes the two keys and no other, and the two
    writes it starts together can land in either order: the storage that
    results is the same. *)
Theorem updateTokens_two_keys d1 d2 token refreshToken w :
  let done := snd (updateTokens (TokenStore d1 d2) token refreshToken w) in
  Promise_all [LocalStorage.setItem KEY_REFRESH_TOKEN refreshToken;
               LocalStorage.setItem KEY_TOKEN token] w
  = (Returned tt, done)
  /\ (forall k, k <> KEY_TOKEN -> k <> KEY_REFRESH_TOKEN ->
        storage done !! k = storage w !! k)
  /\ aborted done = aborted w /\ calls done = calls w /\ lines done = lines w.
Proof.
  cbv zeta. rewrite updateTokens_run. cbn [snd]. split; [|split].
  - cbn [Promise_all]. unfold bind, LocalStorage.setItem, ret. cbn [fst snd].
    f_equal. unfold set_storage, stored. cbn [storage aborted calls lines].
    f_equal. apply insert_insert_ne. discriminate.
  - intros k Hk1 Hk2. cbn [storage set_storage]. unfold stored.
    rewrite !lookup_insert_ne by congruence. reflexivity.
  - repeat split.
Qed.

(** ** The pipeline *)

Section PipelineFacts.

Variables defaultToken defaultRefreshToken : string.
Variable lg : Logger.
Variable tr : Transport.

Local Abbreviation ts := (TokenStore defaultToken defaultRefreshToken).
Local Abbreviation client := (createSetappClient defaultToken defaultRefreshToken lg).
Local Abbreviation request := (Client.request client tr).

(** The first version, one step at a time. *)
Lemma main_request_unfold fuel req w :
  Main.request ts lg tr (S fuel) req w =
  let sent := Request_init req (auth_headers (access_token defaultToken w)) in
  let w1 := set_calls (calls w ++ [sent]) w in
  let resp := tr (calls w ++ [sent]) in
  if ok resp then (Returned resp, w1)
  else if status resp =? 401 then
    let w2 := logged lg "token expired, refreshing" w1 in
    let req' := refresh_request defaultRefreshToken w2 in
    match Main.request ts lg tr fuel req' w2 with
    | (Returned resp', w3) =>
        match json resp' with
        | Some j =>
            match as_token_pair j with
            | Some (t, r) =>
                Main.request ts lg tr fuel req'
                  (logged lg "token refreshed, start resending request"
                     (set_storage (stored t r) w3))
            | None => (Thrown TypeError, w3)
            end
        | None => (Thrown SyntaxError, w3)
        end
    | (Thrown e, w3) => (Thrown e, w3)
    | (Pending, w3) => (Pending, w3)
    end
  else (Thrown (Error ("request error: " +:+ url req)), w1).
Proof.
  cbn [Main.request]. unfold bind at 1. rewrite getToken_run.
  unfold bind at 1, fetch at 1. cbv zeta.
  destruct (ok _); [reflexivity|].
  destruct (status _ =? 401); [|reflexivity].
  unfold bind at 1. rewrite log_run. unfold bind at 1.
  rewrite getRefreshToken_run.
  set (w2 := logged lg "token expired, refreshing" _).
  fold (refresh_request defaultRefreshToken w2). unfold bind at 1.
  destruct (Main.request _ _ _ fuel _ w2) as [[resp'|e|] w3]; try reflexivity.
  unfold bind at 1, Response_json.
  destruct (json resp') as [j|]; [|reflexivity].
  cbv beta iota delta [ret]. unfold bind at 1, token_data.
  destruct (as_token_pair j) as [[t r]|]; [|reflexivity].
  cbv beta iota delta [ret]. unfold bind at 1. rewrite updateTokens_run.
  unfold bind at 1. now rewrite log_run.
Qed.

(** A response the pipeline returns is a success, the answer to the last
    call made, and that call is the request it was given, under the token
    the store holds at the end. *)
Lemma request_returned_last fuel req w resp :
  fst (request fuel req w) = Returned resp ->
  let w' := snd (request fuel req w) in
  ok resp = true
  /\ resp = tr (calls w')
  /\ exists earlier,
       calls w' = earlier
                  ++ [Request_init req (auth_headers (access_token defaultToken w'))].
Proof.
  cbv zeta. revert req w. induction fuel as [|fuel IH]; intros req w;
    [discriminate|].
  rewrite request_step.
  destruct (aborted w); [discriminate|]. cbv zeta.
  destruct (ok (tr _)) eqn:Hok.
  - cbn [fst snd calls set_calls]. intros [= <-]. split; [exact Hok|].
    split; [reflexivity|]. now exists (calls w).
  - destruct (status _ =? 401); [|discriminate].
    rewrite refreshToken_via_run.
    destruct (Client.request _ _ fuel (refresh_request _ _) _)
      as [[resp'|e|] w2]; try discriminate.
    destruct (json resp') as [j|]; [|discriminate].
    destruct (as_token_pair j) as [[t r]|]; [|discriminate].
    intros Hret. exact (IH _ _ Hret).
Qed.

(** The calls a run adds: every one carries the two headers of the
    pipeline, and is either the request given or a refresh. *)
Lemma request_calls_shape fuel req w :
  exists added,
    calls (snd (request fuel req w)) = calls w ++ added
    /\ Forall (fun c => authorized c /\ (same_target c req \/ is_refresh c)) added.
Proof.
  revert req w. induction fuel as [|fuel IH]; intros req w.
  - exists []. cbn. now rewrite app_nil_r.
  - rewrite request_step.
    destruct (aborted w); [exists []; cbn; now rewrite app_nil_r|]. cbv zeta.
    set (sent := Request_init req _).
    assert (Hsent : authorized sent /\ (same_target sent req \/ is_refresh sent)).
    { split; [eexists; reflexivity | left; repeat split]. }
    destruct (ok _); [exists [sent]; split; [reflexivity | now constructor]|].
    destruct (status _ =? 401);
      [|exists [sent]; split; [reflexivity | now constructor]].
    rewrite refreshToken_via_run.
    set (w1 := logged lg "token expired, refreshing" _).
    assert (Hw1 : calls w1 = calls w ++ [sent])
      by (unfold w1; now rewrite logged_calls).
    destruct (IH (refresh_request defaultRefreshToken w1) w1) as (a1 & H1 & F1).
    rewrite Hw1 in H1.
    assert (F1' : Forall (fun c => authorized c
                                   /\ (same_target c req \/ is_refresh c)) a1).
    { revert F1. apply List.Forall_impl. intros c [Ha [(Hu & Hm & Hb)|Hr]].
      - split; [exact Ha|]. right. repeat split; [exact Hu | exact Hm |].
        eexists. exact Hb.
      - split; [exact Ha | now right]. }
    destruct (Client.request _ _ fuel (refresh_request _ w1) w1)
      as [[resp|e|] w2]; cbn [snd] in H1.
    + destruct (json resp) as [j|];
        [|exists (sent :: a1); split;
          [cbn [snd]; now rewrite H1, <- app_assoc | now constructor]].
      destruct (as_token_pair j) as [[t r]|];
        [|exists (sent :: a1); split;
          [cbn [snd]; now rewrite H1, <- app_assoc | now constructor]].
      set (w3 := logged lg "token refreshed, start resending request" _).
      destruct (IH sent w3) as (a2 & H2 & F2).
      exists (sent :: a1 ++ a2). split.
      * rewrite H2. unfold w3. rewrite logged_calls. cbn [calls set_storage].
        rewrite H1. now rewrite <- !app_assoc.
      * constructor; [exact Hsent|]. apply Forall_app. split; [exact F1'|].
        revert F2. apply List.Forall_impl. intros c [Ha [(Hu & Hm & Hb)|Hr]].
        -- split; [exact Ha|]. left. repeat split; assumption.
        -- split; [exact Ha | now right].
    + exists (sent :: a1). split;
        [cbn [snd]; now rewrite H1, <- app_assoc | now constructor].
    + exists (sent :: a1). split;
        [cbn [snd]; now rewrite H1, <- app_assoc | now constructor].
Qed.

(** The pipeline writes the two keys of the tokens and no other. *)
Lemma request_storage_frame fuel req w k :
  k <> KEY_TOKEN -> k <> KEY_REFRESH_TOKEN ->
  storage (snd (request fuel req w)) !! k = storage w !! k.
Proof.
  intros Hk1 Hk2. revert req w.
  induction fuel as [|fuel IH]; intros req w; [reflexivity|].
  rewrite request_step.
  destruct (aborted w); [reflexivity|]. cbv zeta.
  destruct (ok _); [reflexivity|].
  destruct (status _ =? 401); [|reflexivity].
  rewrite refreshToken_via_run.
  set (w1 := logged lg "token expired, refreshing" _).
  assert (Hw1 : storage w1 = storage w)
    by (unfold w1; now rewrite logged_storage).
  pose proof (IH (refresh_request defaultRefreshToken w1) w1) as H1.
  rewrite Hw1 in H1.
  destruct (Client.request _ _ fuel (refresh_request _ w1) w1)
    as [[resp|e|] w2]; cbn [snd] in *; try exact H1.
  destruct (json resp) as [j|]; [|exact H1].
  destruct (as_token_pair j) as [[t r]|]; [|exact H1].
  rewrite IH, logged_storage. cbn [storage set_storage]. unfold stored.
  rewrite !lookup_insert_ne by congruence. exact H1.
Qed.

End PipelineFacts.

Section RefreshFacts.

Variables defaultToken defaultRefreshToken : string.
Variable lg : Logger.
Variable tr : Transport.

Local Abbreviation ts := (TokenStore defaultToken defaultRefreshToken).
Local Abbreviation client := (createSetappClient defaultToken defaultRefreshToken lg).
Local Abbreviation request := (Client.request client tr).

Lemma access_token_same d (a b : World) :
  storage a = storage b -> access_token d a = access_token d b.
Proof. unfold access_token. now intros ->. Qed.

Lemma refresh_token_same d (a b : World) :
  storage a = storage b -> refresh_token d a = refresh_token d b.
Proof. unfold refresh_token. now intros ->. Qed.

(** A logger line adds one line, whatever the reaction. *)
Lemma logged_lines text w :
  lines (logged lg text w) = lines w ++ [text].
Proof. unfold logged, log. now destruct (lg text). Qed.

(** In a run that fulfils, every refresh is paired with its two lines and
    its retry: one call more than lines. *)
Lemma request_returned_count fuel req w resp :
  fst (request fuel req w) = Returned resp ->
  let w' := snd (request fuel req w) in
  (length (calls w') + length (lines w)
   = S (length (calls w) + length (lines w')))%nat.
Proof.
  cbv zeta. revert req w resp.
  induction fuel as [|fuel IH]; intros req w resp; [discriminate|].
  rewrite request_step.
  destruct (aborted w); [discriminate|]. cbv zeta.
  destruct (ok (tr _)).
  - intros _. cbn [snd calls lines set_calls]. rewrite length_app.
    cbn [length]. lia.
  - destruct (status _ =? 401); [|discriminate].
    rewrite refreshToken_via_run.
    set (w1 := logged lg "token expired, refreshing" _).
    pose proof (IH (refresh_request defaultRefreshToken w1) w1) as H1.
    destruct (Client.request _ _ fuel (refresh_request _ w1) w1)
      as [[resp'|e|] w2]; try discriminate.
    specialize (H1 resp' eq_refl). cbn [snd] in H1.
    destruct (json resp') as [j|]; [|discriminate].
    destruct (as_token_pair j) as [[t r]|]; [|discriminate].
    set (w3 := logged lg "token refreshed, start resending request" _).
    intros Hret. specialize (IH _ _ _ Hret).
    assert (Hc1 : length (calls w1) = S (length (calls w))).
    { unfold w1. rewrite logged_calls. cbn [calls set_calls].
      rewrite length_app. cbn [length]. lia. }
    assert (Hl1 : length (lines w1) = S (length (lines w))).
    { unfold w1. rewrite logged_lines. cbn [lines set_calls].
      rewrite length_app. cbn [length]. lia. }
    assert (Hc3 : length (calls w3) = length (calls w2))
      by (unfold w3; now rewrite logged_calls).
    assert (Hl3 : length (lines w3) = S (length (lines w2))).
    { unfold w3. rewrite logged_lines. cbn [lines set_storage].
      rewrite length_app. cbn [length]. lia. }
    lia.
Qed.

(** The tokens a run leaves in the store are the ones it found, or a pair
    that a successful answer to a refresh has supplied. *)
Lemma request_tokens_provenance fuel req w :
  let w' := snd (request fuel req w) in
  storage w' = storage w
  \/ exists history earlier c doc t r,
       history = earlier ++ [c] /\ is_refresh c
       /\ ok (tr history) = true
       /\ json (tr history) = Some doc
       /\ as_token_pair doc = Some (t, r)
       /\ access_token defaultToken w' = t
       /\ refresh_token defaultRefreshToken w' = r.
Proof.
  cbv zeta. revert req w.
  induction fuel as [|fuel IH]; intros req w; [now left|].
  rewrite request_step.
  destruct (aborted w); [now left|]. cbv zeta.
  destruct (ok (tr _)); [now left|].
  destruct (status _ =? 401); [|now left].
  rewrite refreshToken_via_run.
  set (w1 := logged lg "token expired, refreshing" _).
  assert (Hw1 : storage w1 = storage w)
    by (unfold w1; now rewrite logged_storage).
  pose proof (IH (refresh_request defaultRefreshToken w1) w1) as H1.
  rewrite Hw1 in H1.
  pose proof (request_returned_last defaultToken defaultRefreshToken lg tr fuel
                (refresh_request defaultRefreshToken w1) w1) as Hlast.
  cbv zeta in Hlast.
  destruct (Client.request _ _ fuel (refresh_request _ w1) w1)
    as [[resp|e|] w2]; cbn [fst snd] in *; try exact H1.
  destruct (json resp) as [j|] eqn:Hj; [|exact H1].
  destruct (as_token_pair j) as [[t r]|] eqn:Hp; [|exact H1].
  set (w3 := logged lg "token refreshed, start resending request" _).
  destruct (IH (Request_init req (auth_headers (access_token defaultToken w))) w3)
    as [Hsame | Hnew]; [|right; exact Hnew].
  right. destruct (Hlast resp eq_refl) as (Hok & -> & earlier & Hcalls).
  exists (calls w2), earlier. eexists. exists j, t, r.
  split; [exact Hcalls|]. split.
  { repeat split. eexists. reflexivity. }
  split; [exact Hok|]. split; [exact Hj|]. split; [exact Hp|].
  rewrite (access_token_same _ _ _ Hsame), (refresh_token_same _ _ _ Hsame).
  unfold w3.
  now rewrite access_token_logged, refresh_token_logged,
    access_token_stored, refresh_token_stored.
Qed.

(** When the refresh is refused with a status that is neither a success
    nor 401, the run ends there, in both versions. *)
Lemma refresh_refused_run fuel req w :
  let first := Request_init req (auth_headers (access_token defaultToken w)) in
  let refresh :=
    Request_init (refresh_request defaultRefreshToken w)
      (auth_headers (access_token defaultToken w)) in
  let w' := logged lg "token expired, refreshing"
              (set_calls (calls w ++ [first]) w) in
  aborted w' = false ->
  status (tr (calls w ++ [first])) = 401 ->
  ok (tr (calls w ++ [first; refresh])) = false ->
  status (tr (calls w ++ [first; refresh])) <> 401 ->
  request (S (S fuel)) req w
  = (Thrown (Error "request error: https://user-api.setapp.com/v1/token"),
     set_calls (calls w ++ [first; refresh]) w')
  /\ Main.request ts lg tr (S (S fuel)) req w
     = (Thrown (Error "request error: https://user-api.setapp.com/v1/token"),
        set_calls (calls w ++ [first; refresh]) w').
Proof.
  intros first refresh w' Hlive H401 Hok Hst.
  assert (Hw : aborted w = false).
  { unfold w', logged, log in Hlive. destruct (lg _); [exact Hlive|discriminate]. }
  assert (Hcalls : calls w' ++ [refresh] = calls w ++ [first; refresh]).
  { unfold w'. rewrite logged_calls. cbn [calls set_calls].
    now rewrite <- app_assoc. }
  assert (Hreq : Request_init (refresh_request defaultRefreshToken w')
                   (auth_headers (access_token defaultToken w')) = refresh).
  { unfold w', refresh, refresh_request.
    now rewrite access_token_logged, refresh_token_logged. }
  apply Z.eqb_neq in Hst. split.
  - rewrite request_step, Hw. cbv zeta. fold first.
    rewrite (unauthorized_not_ok _ H401), H401. cbn [Z.eqb Pos.eqb].
    rewrite refreshToken_via_run. fold w'.
    rewrite request_step, Hlive. cbv zeta. rewrite Hreq, Hcalls, Hok, Hst.
    reflexivity.
  - rewrite main_request_unfold. cbv zeta. fold first.
    rewrite (unauthorized_not_ok _ H401), H401. cbn [Z.eqb Pos.eqb].
    fold w'. rewrite main_request_unfold. cbv zeta.
    rewrite Hreq, Hcalls, Hok, Hst. reflexivity.
Qed.

(** When the answer to the refresh is a success without a usable
    document, the run ends there as well. *)
Lemma refresh_malformed_run fuel req w :
  let first := Request_init req (auth_headers (access_token defaultToken w)) in
  let refresh :=
    Request_init (refresh_request defaultRefreshToken w)
      (auth_headers (access_token defaultToken w)) in
  let w' := logged lg "token expired, refreshing"
              (set_calls (calls w ++ [first]) w) in
  let answer := tr (calls w ++ [first; refresh]) in
  aborted w' = false ->
  status (tr (calls w ++ [first])) = 401 ->
  ok answer = true ->
  (json answer = None ->
   request (S (S fuel)) req w
   = (Thrown SyntaxError, set_calls (calls w ++ [first; refresh]) w'))
  /\ (forall doc, json answer = Some doc -> prop "data" doc = None ->
      request (S (S fuel)) req w
      = (Thrown TypeError, set_calls (calls w ++ [first; refresh]) w')).
Proof.
  intros first refresh w' answer Hlive H401 Hok.
  assert (Hw : aborted w = false).
  { unfold w', logged, log in Hlive. destruct (lg _); [exact Hlive|discriminate]. }
  assert (Hcalls : calls w' ++ [refresh] = calls w ++ [first; refresh]).
  { unfold w'. rewrite logged_calls. cbn [calls set_calls].
    now rewrite <- app_assoc. }
  assert (Hreq : Request_init (refresh_request defaultRefreshToken w')
                   (auth_headers (access_token defaultToken w')) = refresh).
  { unfold w', refresh, refresh_request.
    now rewrite access_token_logged, refresh_token_logged. }
  assert (Hrun : request (S (S fuel)) req w
                 = match json answer with
                   | Some j =>
                       match as_token_pair j with
                       | Some (t, r) =>
                           request (S fuel) first
                             (logged lg "token refreshed, start resending request"
                                (set_storage (stored t r)
                                   (set_calls (calls w ++ [first; refresh]) w')))
                       | None =>
                           (Thrown TypeError,
                            set_calls (calls w ++ [first; refresh]) w')
                       end
                   | None =>
                       (Thrown SyntaxError,
                        set_calls (calls w ++ [first; refresh]) w')
                   end).
  { rewrite request_step, Hw. cbv zeta. fold first.
    rewrite (unauthorized_not_ok _ H401), H401. cbn [Z.eqb Pos.eqb].
    rewrite refreshToken_via_run. fold w'.
    rewrite request_step, Hlive. cbv zeta. rewrite Hreq, Hcalls.
    fold answer. rewrite Hok.
    destruct (json answer) as [j|]; [|reflexivity].
    destruct (as_token_pair j) as [[t r]|]; reflexivity. }
  split.
  - intros Hj. now rewrite Hrun, Hj.
  - intros doc Hj Hdata. rewrite Hrun, Hj. unfold as_token_pair.
    now rewrite Hdata.
Qed.

(** The first version after a successful refresh: the request it sends
    again is the refresh request, and what it returns is the answer to it. *)
Lemma main_request_refresh_run fuel req w j t r :
  let first := Request_init req (auth_headers (access_token defaultToken w)) in
  let refresh :=
    Request_init (refresh_request defaultRefreshToken w)
      (auth_headers (access_token defaultToken w)) in
  let again :=
    Request_init (refresh_request defaultRefreshToken w) (auth_headers t) in
  status (tr (calls w ++ [first])) = 401 ->
  ok (tr (calls w ++ [first; refresh])) = true ->
  json (tr (calls w ++ [first; refresh])) = Some j ->
  as_token_pair j = Some (t, r) ->
  ok (tr (calls w ++ [first; refresh; again])) = true ->
  let run := Main.request ts lg tr (S (S fuel)) req w in
  fst run = Returned (tr (calls w ++ [first; refresh; again]))
  /\ calls (snd run) = calls w ++ [first; refresh; again]
  /\ storage (snd run) = stored t r (storage w).
Proof.
  intros first refresh again H401 Hok2 Hjson Hpair Hok3. cbv zeta.
  rewrite main_request_unfold. cbv zeta. fold first.
  rewrite (unauthorized_not_ok _ H401), H401. cbn [Z.eqb Pos.eqb].
  set (w1 := logged lg "token expired, refreshing" _).
  assert (Hc1 : calls w1 ++ [refresh] = calls w ++ [first; refresh]).
  { unfold w1. rewrite logged_calls. cbn [calls set_calls].
    now rewrite <- app_assoc. }
  assert (Hr1 : Request_init (refresh_request defaultRefreshToken w1)
                  (auth_headers (access_token defaultToken w1)) = refresh).
  { unfold w1, refresh, refresh_request.
    now rewrite access_token_logged, refresh_token_logged. }
  assert (Hrr : refresh_request defaultRefreshToken w1
                = refresh_request defaultRefreshToken w).
  { unfold w1, refresh_request. now rewrite refresh_token_logged. }
  rewrite main_request_unfold. cbv zeta. rewrite Hr1, Hc1, Hok2, Hjson, Hpair.
  set (w3 := logged lg "token refreshed, start resending request" _).
  assert (Hr3 : Request_init (refresh_request defaultRefreshToken w1)
                  (auth_headers (access_token defaultToken w3)) = again).
  { unfold again. rewrite Hrr. unfold w3.
    now rewrite access_token_logged, access_token_stored. }
  assert (Hc3 : calls w3 ++ [again] = calls w ++ [first; refresh; again]).
  { unfold w3. rewrite logged_calls. cbn [calls set_calls set_storage].
    now rewrite <- app_assoc. }
  rewrite main_request_unfold. cbv zeta. rewrite Hr3, Hc3, Hok3.
  cbn [fst snd calls storage set_calls]. repeat split.
  unfold w3. rewrite logged_storage. cbn [storage set_storage set_calls].
  unfold w1. now rewrite logged_storage.
Qed.

End RefreshFacts.

(** ** The two operations of the client *)

Section DeviceFacts.

Variables defaultToken defaultRefreshToken : string.
Variable lg : Logger.
Variable tr : Transport.

Local Abbreviation client := (createSetappClient defaultToken defaultRefreshToken lg).
Local Abbreviation request := (Client.request client tr).

(** One successful call. *)
Lemma request_accepted_run fuel req w :
  let sent := Request_init req (auth_headers (access_token defaultToken w)) in
  aborted w = false ->
  ok (tr (calls w ++ [sent])) = true ->
  request (S fuel) req w
  = (Returned (tr (calls w ++ [sent])), set_calls (calls w ++ [sent]) w).
Proof.
  intros sent Hlive Hok. rewrite request_step, Hlive. cbv zeta. fold sent.
  now rewrite Hok.
Qed.

Lemma fetchActiveDevices_accepted_run fuel w doc devices :
  let w0 := logged lg "start fetching devices." w in
  let sent := Request_init (Request_new DEVICES_URL GET None)
                (auth_headers (access_token defaultToken w)) in
  let w1 := set_calls (calls w ++ [sent]) w0 in
  aborted w0 = false ->
  ok (tr (calls w ++ [sent])) = true ->
  json (tr (calls w ++ [sent])) = Some doc ->
  as_device_list doc = Some devices ->
  Client.fetchActiveDevices client tr (S fuel) w
  = (Returned devices,
     if 0 <? Z.of_nat (length devices)
     then logged lg ("fetched devices: "
                     +:+ String.concat ", " (map name devices)) w1
     else w1).
Proof.
  intros w0 sent w1 Hlive Hok Hdoc Hdev.
  rewrite fetchActiveDevices_run. fold w0.
  assert (Hsent : Request_init (Request_new DEVICES_URL GET None)
                    (auth_headers (access_token defaultToken w0)) = sent)
    by (unfold w0, sent; now rewrite access_token_logged).
  assert (Hc : calls w0 = calls w) by apply logged_calls.
  assert (Hok0 : ok (tr (calls w0 ++
                   [Request_init (Request_new DEVICES_URL GET None)
                      (auth_headers (access_token defaultToken w0))])) = true)
    by (rewrite Hsent, Hc; exact Hok).
  rewrite (request_accepted_run fuel _ w0 Hlive Hok0), Hsent, Hc.
  now rewrite Hdoc, Hdev.
Qed.

Lemma disconnectDeviceById_accepted_run fuel id w :
  let w0 := logged lg ("disconnecting device of id: " +:+ pretty id) w in
  let sent := Request_init
                (Request_new (DEVICES_URL +:+ "/" +:+ pretty id) DELETE None)
                (auth_headers (access_token defaultToken w)) in
  aborted w0 = false ->
  ok (tr (calls w ++ [sent])) = true ->
  Client.disconnectDeviceById client tr (S fuel) id w
  = (Returned tt,
     logged lg "device disconnected" (set_calls (calls w ++ [sent]) w0)).
Proof.
  intros w0 sent Hlive Hok.
  rewrite disconnectDeviceById_run. fold w0.
  set (req := Request_new (DEVICES_URL +:+ "/" +:+ pretty id) DELETE None) in *.
  assert (Hsent : Request_init req (auth_headers (access_token defaultToken w0))
                  = sent)
    by (unfold w0, sent; now rewrite access_token_logged).
  assert (Hc : calls w0 = calls w) by apply logged_calls.
  assert (Hok0 : ok (tr (calls w0 ++
                   [Request_init req
                      (auth_headers (access_token defaultToken w0))])) = true)
    by (rewrite Hsent, Hc; exact Hok).
  now rewrite (request_accepted_run fuel _ w0 Hlive Hok0), Hsent, Hc.
Qed.

(** The calls of an operation are the ones of its one [request]. *)
Lemma fetchActiveDevices_calls fuel w :
  calls (snd (Client.fetchActiveDevices client tr fuel w))
  = calls (snd (request fuel (Request_new DEVICES_URL GET None)
                  (logged lg "start fetching devices." w))).
Proof.
  rewrite fetchActiveDevices_run.
  destruct (Client.request _ _ fuel _ _) as [[resp|e|] w1]; try reflexivity.
  destruct (json resp) as [doc|]; [|reflexivity].
  destruct (as_device_list doc) as [devices|]; [|reflexivity].
  cbn [snd]. destruct (0 <? _); [now rewrite logged_calls | reflexivity].
Qed.

Lemma disconnectDeviceById_calls fuel id w :
  calls (snd (Client.disconnectDeviceById client tr fuel id w))
  = calls (snd (request fuel
                  (Request_new (DEVICES_URL +:+ "/" +:+ pretty id) DELETE None)
                  (logged lg ("disconnecting device of id: " +:+ pretty id) w))).
Proof.
  rewrite disconnectDeviceById_run.
  destruct (Client.request _ _ fuel _ _) as [[resp|e|] w1]; try reflexivity.
  cbn [snd]. now rewrite logged_calls.
Qed.

Lemma perform_storage_frame fuel op w k :
  k <> KEY_TOKEN -> k <> KEY_REFRESH_TOKEN ->
  storage (perform client tr fuel op w) !! k = storage w !! k.
Proof.
  intros Hk1 Hk2. destruct op as [|id]; unfold perform.
  - rewrite fetchActiveDevices_run.
    pose proof (request_storage_frame defaultToken defaultRefreshToken lg tr fuel
                  (Request_new DEVICES_URL GET None)
                  (logged lg "start fetching devices." w) k Hk1 Hk2) as H1.
    rewrite logged_storage in H1.
    destruct (Client.request _ _ fuel _ _) as [[resp|e|] w1];
      cbn [snd] in *; try exact H1.
    destruct (json resp) as [doc|]; [|exact H1].
    destruct (as_device_list doc) as [devices|]; [|exact H1].
    cbn [snd]. destruct (0 <? _); [rewrite logged_storage|]; exact H1.
  - rewrite disconnectDeviceById_run.
    pose proof (request_storage_frame defaultToken defaultRefreshToken lg tr fuel
                  (Request_new (DEVICES_URL +:+ "/" +:+ pretty id) DELETE None)
                  (logged lg ("disconnecting device of id: " +:+ pretty id) w)
                  k Hk1 Hk2) as H1.
    rewrite logged_storage in H1.
    destruct (Client.request _ _ fuel _ _) as [[resp|e|] w1];
      cbn [snd] in *; try exact H1.
    rewrite logged_storage. exact H1.
Qed.

End DeviceFacts.

(** ** The workflow *)

Lemma several_is_not_zero {A} (a b : A) (rest : list A) :
  (Z.of_nat (length (a :: b :: rest)) =? 0) = false
  /\ (Z.of_nat (length (a :: b :: rest)) =? 1) = false
  /\ (0 <? Z.of_nat (length (a :: b :: rest))) = true.
Proof.
  cbn [length]. split; [|split].
  - apply Z.eqb_neq. lia.
  - apply Z.eqb_neq. lia.
  - apply Z.ltb_lt. lia.
Qed.

(** [fn], one step at a time. *)
Lemma fn_run this pw tr fuel h :
  Component.fn this pw tr fuel h =
  match Client.fetchActiveDevices this tr fuel (world h) with
  | (Returned devices, w1) =>
      match devices with
      | [] =>
          (Done tt,
           {| world := logged (logger this)
                         "there is no active devices, closing..." w1;
              events := events h ++ [Waited 4000; WindowClosed Immediate] |})
      | [device] =>
          match Client.disconnectDeviceById this tr fuel (id device) w1 with
          | (Returned _, w2) =>
              (Done tt,
               {| world := logged (logger this) "done." w2;
                  events := events h ++ [Copied pw; Waited 4000;
                                         WindowClosed Immediate] |})
          | (Thrown e, w2) =>
              (Failed (Rejected e), {| world := w2; events := events h |})
          | (Pending, w2) => (Unsettled, {| world := w2; events := events h |})
          end
      | _ :: _ :: _ =>
          (Failed (AssertionError (device_count_message devices)),
           {| world := w1; events := events h |})
      end
  | (Thrown e, w1) => (Failed (Rejected e), {| world := w1; events := events h |})
  | (Pending, w1) => (Unsettled, {| world := w1; events := events h |})
  end.
Proof.
  unfold Component.fn. cbv zeta. unfold hbind at 1, lift at 1.
  destruct (Client.fetchActiveDevices this tr fuel (world h))
    as [[devices|e|] w1]; try reflexivity.
  destruct devices as [|d [|d' rest]].
  - change (Z.of_nat (length (@nil Device)) =? 0) with true. cbv iota.
    unfold hbind, lift, delay, closeMainWindow, emit.
    cbn [world events]. rewrite log_run. cbn [world events].
    now rewrite <- app_assoc.
  - change (Z.of_nat (length [d]) =? 0) with false.
    change (Z.of_nat (length [d]) =? 1) with true. cbv iota.
    unfold assert. unfold hbind at 1, hret at 1. unfold hbind at 1, lift at 1.
    cbn [world events].
    destruct (Client.disconnectDeviceById this tr fuel (id d) w1)
      as [[[]|e|] w2]; try reflexivity.
    unfold hbind, lift, Clipboard_copy, delay, closeMainWindow, emit.
    cbn [world events]. rewrite log_run. cbn [world events].
    now rewrite <- !app_assoc.
  - destruct (several_is_not_zero d d' rest) as (H0 & H1 & _).
    rewrite H0, H1. reflexivity.
Qed.

Section WithoutRefresh.

Variables defaultToken defaultRefreshToken : string.
Variable lg : Logger.
Variable tr : Transport.

Local Abbreviation ts := (TokenStore defaultToken defaultRefreshToken).
Local Abbreviation client := (createSetappClient defaultToken defaultRefreshToken lg).

Hypothesis Hno401 : forall history, status (tr history) <> 401.

(** Without a 401 a run of [request] is its one call, in both versions. *)
Lemma request_without_401 fuel req w :
  let sent := Request_init req (auth_headers (access_token defaultToken w)) in
  aborted w = false ->
  Client.request client tr (S fuel) req w
  = (if ok (tr (calls w ++ [sent])) then Returned (tr (calls w ++ [sent]))
     else Thrown (Error ("request error: " +:+ url req)),
     set_calls (calls w ++ [sent]) w)
  /\ Main.request ts lg tr (S fuel) req w
     = Client.request client tr (S fuel) req w.
Proof.
  intros sent Hlive.
  assert (Hst : (status (tr (calls w ++ [sent])) =? 401) = false)
    by (apply Z.eqb_neq, Hno401).
  assert (H : Client.request client tr (S fuel) req w
              = (if ok (tr (calls w ++ [sent]))
                 then Returned (tr (calls w ++ [sent]))
                 else Thrown (Error ("request error: " +:+ url req)),
                 set_calls (calls w ++ [sent]) w)).
  { rewrite request_step, Hlive. cbv zeta. fold sent. rewrite Hst.
    now destruct (ok _). }
  split; [exact H|]. rewrite H, main_request_unfold. cbv zeta. fold sent.
  rewrite Hst. now destruct (ok _).
Qed.

Lemma versions_agree_without_401 fuel req w :
  aborted w = false ->
  Main.request ts lg tr fuel req w = Client.request client tr fuel req w.
Proof.
  intros Hlive. destruct fuel as [|fuel]; [reflexivity|].
  now apply request_without_401.
Qed.

Lemma request_stays_live_without_401 fuel req w :
  aborted w = false ->
  aborted (snd (Client.request client tr fuel req w)) = false.
Proof.
  intros Hlive. destruct fuel as [|fuel]; [exact Hlive|].
  destruct (request_without_401 fuel req w Hlive) as [-> _]. exact Hlive.
Qed.

End WithoutRefresh.

(** X19: as long as the service never answers 401, answers the list call
    with a document of the declared type (a device list) whenever it
    answers it with JSON, and the logger does not dispose the client,
    [main] of the first version and [fn] of the second do the same: same
    outcome, same calls, same lines, same storage, same clipboard, timer
    and window events.  On documents of another type the source of the two
    versions goes different ways, which the model does not follow. *)
Theorem main_agrees_with_component d1 d2 lg tr pw fuel h :
  let sent := Request_init (Request_new DEVICES_URL GET None)
                (auth_headers (access_token d1 (world h))) in
  (forall history, status (tr history) <> 401) ->
  (forall doc, json (tr (calls (world h) ++ [sent])) = Some doc ->
               as_device_list doc <> None) ->
  (forall text, lg text = Keeps) ->
  aborted (world h) = false ->
  main (TokenStore d1 d2) pw lg tr fuel h
  = Component.fn (createSetappClient d1 d2 lg) pw tr fuel h.
Proof.
  intros sent Hno401 _ Hlg Hlive.
  assert (Hkeep : forall text w, aborted w = false ->
                                 aborted (logged lg text w) = false).
  { intros text w Hw. now rewrite (logged_keeps _ _ _ (Hlg text)). }
  rewrite fn_run, fetchActiveDevices_run.
  unfold main. cbv zeta. unfold hbind at 1, lift at 1. rewrite log_run.
  cbn [world events].
  set (w0 := logged lg "start fetching devices." (world h)).
  assert (Hw0 : aborted w0 = false) by (apply Hkeep, Hlive).
  unfold hbind at 1, lift at 1. cbn [world events].
  rewrite (versions_agree_without_401 d1 d2 lg tr Hno401 fuel _ w0 Hw0).
  pose proof (request_stays_live_without_401 d1 d2 lg tr Hno401 fuel
                (Request_new DEVICES_URL GET None) w0 Hw0) as Hw1.
  destruct (Client.request _ tr fuel (Request_new DEVICES_URL GET None) w0)
    as [[resp|e|] w1]; cbn [snd] in Hw1; try reflexivity.
  unfold hbind at 1, lift at 1, Response_json. cbn [world events].
  destruct (json resp) as [doc|]; [|reflexivity].
  cbv beta iota delta [ret]. unfold hbind at 1, lift at 1, device_data.
  cbn [world events].
  destruct (as_device_list doc) as [devices|]; [|reflexivity].
  cbv beta iota delta [ret].
  destruct devices as [|d [|d' rest]].
  - change (0 <? Z.of_nat (length (@nil Device))) with false. cbv iota.
    unfold hbind, lift, delay, closeMainWindow, emit. cbn [world events].
    rewrite log_run. cbn [world events]. now rewrite <- app_assoc.
  - change (0 <? Z.of_nat (length [d])) with true.
    change (Z.of_nat (length [d]) =? 1) with true. cbv iota.
    set (w2 := logged lg ("fetched devices: " +:+ _) w1).
    assert (Hw2 : aborted w2 = false) by (apply Hkeep, Hw1).
    rewrite disconnectDeviceById_run.
    set (w3 := logged lg ("disconnecting device of id: " +:+ _) w2).
    assert (Hw3 : aborted w3 = false) by (apply Hkeep, Hw2).
    unfold assert. unfold hbind at 1. unfold hbind at 1, lift at 1.
    rewrite log_run. cbn [world events]. fold w2.
    unfold hbind at 1, hret at 1. unfold hbind at 1, lift at 1.
    rewrite log_run. cbn [world events]. fold w3.
    unfold hbind at 1, lift at 1. cbn [world events].
    rewrite (versions_agree_without_401 d1 d2 lg tr Hno401 fuel _ w3 Hw3).
    destruct (Client.request _ tr fuel _ w3) as [[resp'|e|] w4];
      try reflexivity.
    unfold hbind, lift, Clipboard_copy, delay, closeMainWindow, emit.
    cbn [world events]. rewrite !log_run. cbn [world events].
    now rewrite <- !app_assoc.
  - destruct (several_is_not_zero d d' rest) as (_ & H1 & Hpos).
    rewrite Hpos. unfold hbind at 1. unfold hbind at 1. unfold hbind at 1, lift at 1.
    rewrite log_run. cbn [world events]. unfold assert. rewrite H1.
    reflexivity.
Qed.

(** ** The properties, one by one *)

(** X2: a call answered with a success is the only call of the run; the
    response is returned as it came, and neither the storage nor the lines
    of the logger change.  Both versions. *)
Theorem accepted_request_is_one_call d1 d2 lg tr fuel req w :
  let sent := Request_init req (auth_headers (access_token d1 w)) in
  aborted w = false ->
  ok (tr (calls w ++ [sent])) = true ->
  Client.request (createSetappClient d1 d2 lg) tr (S fuel) req w
  = (Returned (tr (calls w ++ [sent])),
     {| storage := storage w; aborted := false;
        calls := calls w ++ [sent]; lines := lines w |})
  /\ Main.request (TokenStore d1 d2) lg tr (S fuel) req w
     = (Returned (tr (calls w ++ [sent])),
        {| storage := storage w; aborted := false;
           calls := calls w ++ [sent]; lines := lines w |}).
Proof.
  intros sent Hlive Hok. split.
  - rewrite (request_accepted_run d1 d2 lg tr fuel req w Hlive Hok).
    unfold set_calls. now rewrite Hlive.
  - rewrite main_request_unfold. cbv zeta. fold sent. rewrite Hok.
    unfold set_calls. now rewrite Hlive.
Qed.

(** X3: whenever [request] fulfils, the response it returns is a success,
    it is the answer to the last call made, and that call is the request
    that was given, under the token the store holds at the end. *)
Theorem returned_response_answers_request d1 d2 lg tr fuel req w resp :
  let run := Client.request (createSetappClient d1 d2 lg) tr fuel req w in
  fst run = Returned resp ->
  ok resp = true
  /\ resp = tr (calls (snd run))
  /\ exists earlier,
       calls (snd run)
       = earlier ++ [ {| url := url req; method := method req; body := body req;
                         headers := [("Authorization",
                                      "Bearer " +:+ access_token d1 (snd run));
                                     ("Accept", "application/json")] |} ].
Proof.
  cbv zeta. intros Hret.
  exact (request_returned_last d1 d2 lg tr fuel req w resp Hret).
Qed.

(** X4: every call a run of [request] makes carries the two headers of the
    pipeline and no other, and goes either where the given request goes or,
    as a refresh, to the token endpoint. *)
Theorem calls_are_authorized_and_on_target d1 d2 lg tr fuel req w :
  exists added,
    calls (snd (Client.request (createSetappClient d1 d2 lg) tr fuel req w))
    = calls w ++ added
    /\ Forall (fun c =>
         (exists token,
            headers c = [("Authorization", "Bearer " +:+ token);
                         ("Accept", "application/json")])
         /\ ((url c = url req /\ method c = method req /\ body c = body req)
             \/ (url c = "https://user-api.setapp.com/v1/token"
                 /\ method c = POST
                 /\ exists refreshToken,
                      body c = Some (JSON_stringify
                        (JObject [("refresh_token", JString refreshToken)])))))
         added.
Proof. exact (request_calls_shape d1 d2 lg tr fuel req w). Qed.

(** X5: whatever the client is asked to do, it writes the two keys of the
    tokens in the local storage and no other key. *)
Theorem session_touches_only_token_keys d1 d2 lg tr fuel ops w k :
  k <> "Token" -> k <> "RefreshToken" ->
  storage (session (createSetappClient d1 d2 lg) tr fuel ops w) !! k
  = storage w !! k.
Proof.
  intros Hk1 Hk2. unfold session. revert w.
  induction ops as [|op ops IH]; intros w; cbn [fold_left]; [reflexivity|].
  rewrite IH. now apply perform_storage_frame.
Qed.


(** X7: a run of [request] that fulfils has made one call more than it has
    handed lines to the logger: one call, and for every refresh two lines
    and two more calls. *)
Theorem fulfilled_run_counts d1 d2 lg tr fuel req w resp :
  let run := Client.request (createSetappClient d1 d2 lg) tr fuel req w in
  fst run = Returned resp ->
  (length (calls (snd run)) - length (calls w)
   = S (length (lines (snd run)) - length (lines w)))%nat
  /\ (length (lines w) <= length (lines (snd run)))%nat.
Proof.
  cbv zeta. intros Hret.
  pose proof (request_returned_count d1 d2 lg tr fuel req w resp Hret) as H.
  cbv zeta in H.
  pose proof (request_calls_length d1 d2 lg tr fuel req w) as Hc.
  assert (Hl : (length (lines w)
                <= length (lines (snd (Client.request
                     (createSetappClient d1 d2 lg) tr fuel req w))))%nat).
  { clear H Hc Hret. revert req w. induction fuel as [|fuel IH]; intros req w;
      [reflexivity|].
    rewrite request_step. destruct (aborted w); [reflexivity|]. cbv zeta.
    destruct (ok (tr _)); [reflexivity|].
    destruct (status _ =? 401); [|reflexivity].
    rewrite refreshToken_via_run.
    set (w1 := logged lg "token expired, refreshing" _).
    assert (Hw1 : (length (lines w) <= length (lines w1))%nat).
    { unfold w1. rewrite logged_lines, length_app. cbn [lines set_calls]. lia. }
    pose proof (IH (refresh_request d2 w1) w1) as H1.
    destruct (Client.request _ tr fuel (refresh_request d2 w1) w1)
      as [[resp'|e|] w2]; cbn [snd] in *; try lia.
    destruct (json resp') as [j|]; [|cbn [snd]; lia].
    destruct (as_token_pair j) as [[t r]|]; [|cbn [snd]; lia].
    etransitivity; [|apply IH]. rewrite logged_lines, length_app.
    cbn [lines set_storage]. lia. }
  split; [lia | exact Hl].
Qed.

(** X8: when the refresh itself is answered with a status that is neither
    a success nor 401, the run ends after these two calls, in both
    versions: the error names the token endpoint, not the request that was
    given, the tokens are left as they were, and nothing is sent again. *)
Theorem refused_refresh_is_terminal d1 d2 lg tr fuel req w :
  let first := Request_init req (auth_headers (access_token d1 w)) in
  let refresh :=
    Request_init (refresh_request d2 w) (auth_headers (access_token d1 w)) in
  let ended run :=
    fst run = Thrown (Error "request error: https://user-api.setapp.com/v1/token")
    /\ calls (snd run) = calls w ++ [first; refresh]
    /\ storage (snd run) = storage w in
  aborted w = false ->
  lg "token expired, refreshing" = Keeps ->
  status (tr (calls w ++ [first])) = 401 ->
  ok (tr (calls w ++ [first; refresh])) = false ->
  status (tr (calls w ++ [first; refresh])) <> 401 ->
  ended (Client.request (createSetappClient d1 d2 lg) tr (S (S fuel)) req w)
  /\ ended (Main.request (TokenStore d1 d2) lg tr (S (S fuel)) req w).
Proof.
  intros first refresh ended Hlive Hlg H401 Hok Hst.
  assert (Hlive' : aborted (logged lg "token expired, refreshing"
                              (set_calls (calls w ++ [first]) w)) = false)
    by (now rewrite (logged_keeps _ _ _ Hlg)).
  destruct (refresh_refused_run d1 d2 lg tr fuel req w Hlive' H401 Hok Hst)
    as [-> ->].
  unfold ended. cbn [fst snd calls storage set_calls].
  rewrite logged_storage. now repeat split.
Qed.

(** X9: when the refresh is answered with a success whose body is not
    JSON, or whose document has no [data], the run ends there: the promise
    rejects with the [SyntaxError] of [json()], or with the [TypeError] of
    the read on the missing [data]; the tokens are left as they were and
    the request that was given is not sent again. *)
Theorem malformed_refresh_is_terminal d1 d2 lg tr fuel req w :
  let first := Request_init req (auth_headers (access_token d1 w)) in
  let refresh :=
    Request_init (refresh_request d2 w) (auth_headers (access_token d1 w)) in
  let answer := tr (calls w ++ [first; refresh]) in
  let run := Client.request (createSetappClient d1 d2 lg) tr (S (S fuel)) req w in
  aborted w = false ->
  lg "token expired, refreshing" = Keeps ->
  status (tr (calls w ++ [first])) = 401 ->
  ok answer = true ->
  (json answer = None \/ exists doc, json answer = Some doc /\ prop "data" doc = None) ->
  fst run = Thrown (match json answer with Some _ => TypeError | None => SyntaxError end)
  /\ calls (snd run) = calls w ++ [first; refresh]
  /\ storage (snd run) = storage w.
Proof.
  intros first refresh answer run Hlive Hlg H401 Hok Hbad.
  assert (Hlive' : aborted (logged lg "token expired, refreshing"
                              (set_calls (calls w ++ [first]) w)) = false)
    by (now rewrite (logged_keeps _ _ _ Hlg)).
  destruct (refresh_malformed_run d1 d2 lg tr fuel req w Hlive' H401 Hok)
    as [Hsyntax Htype].
  unfold run. fold answer in Hsyntax, Htype.
  destruct Hbad as [Hnone | (doc & Hdoc & Hdata)].
  - rewrite (Hsyntax Hnone), Hnone. cbn [fst snd calls storage set_calls].
    rewrite logged_storage. now repeat split.
  - rewrite (Htype doc Hdoc Hdata), Hdoc. cbn [fst snd calls storage set_calls].
    rewrite logged_storage. now repeat split.
Qed.


(** X11: when the list call is accepted, [fetchActiveDevices] returns the
    devices of the answer after this one GET under the current token, and
    hands the logger the line with their names only if there is a device:
    for an empty list it returns the empty list and logs nothing more. *)
Theorem fetchActiveDevices_accepted d1 d2 lg tr fuel w doc devices :
  let sent :=
    {| url := "https://user-api.setapp.com/v1/devices"; method := GET;
       body := None;
       headers := [("Authorization", "Bearer " +:+ access_token d1 w);
                   ("Accept", "application/json")] |} in
  let run := Client.fetchActiveDevices (createSetappClient d1 d2 lg) tr (S fuel) w in
  aborted w = false ->
  lg "start fetching devices." = Keeps ->
  ok (tr (calls w ++ [sent])) = true ->
  json (tr (calls w ++ [sent])) = Some doc ->
  as_device_list doc = Some devices ->
  fst run = Returned devices
  /\ calls (snd run) = calls w ++ [sent]
  /\ lines (snd run)
     = lines w ++ "start fetching devices."
         :: match devices with
            | [] => []
            | _ :: _ => ["fetched devices: "
                         +:+ String.concat ", " (map name devices)]
            end.
Proof.
  intros sent run Hlive Hlg Hok Hdoc Hdev.
  assert (Hlive' : aborted (logged lg "start fetching devices." w) = false)
    by (now rewrite (logged_keeps _ _ _ Hlg)).
  unfold run.
  rewrite (fetchActiveDevices_accepted_run d1 d2 lg tr fuel w doc devices
             Hlive' Hok Hdoc Hdev).
  cbn [fst snd]. split; [reflexivity|].
  destruct devices as [|d rest].
  - change (0 <? Z.of_nat (length (@nil Device))) with false. cbv iota.
    cbn [calls lines set_calls]. rewrite logged_lines. now split.
  - assert (Hpos : (0 <? Z.of_nat (length (d :: rest))) = true)
      by (apply Z.ltb_lt; cbn [length]; lia).
    rewrite Hpos, logged_calls, logged_lines. cbn [calls lines set_calls].
    rewrite logged_lines, <- app_assoc. now split.
Qed.

(** X12: when the call is accepted, [disconnectDeviceById(id)] has made
    one call, the DELETE of [/devices/id] under the current token, and has
    handed the logger its two lines, the second one after the answer. *)
Theorem disconnectDeviceById_accepted d1 d2 lg tr fuel device_id w :
  let sent :=
    {| url := "https://user-api.setapp.com/v1/devices/" +:+ pretty device_id;
       method := DELETE; body := None;
       headers := [("Authorization", "Bearer " +:+ access_token d1 w);
                   ("Accept", "application/json")] |} in
  let run := Client.disconnectDeviceById (createSetappClient d1 d2 lg) tr
               (S fuel) device_id w in
  aborted w = false ->
  lg ("disconnecting device of id: " +:+ pretty device_id) = Keeps ->
  ok (tr (calls w ++ [sent])) = true ->
  fst run = Returned tt
  /\ calls (snd run) = calls w ++ [sent]
  /\ lines (snd run)
     = lines w ++ ["disconnecting device of id: " +:+ pretty device_id;
                   "device disconnected"]
  /\ storage (snd run) = storage w.
Proof.
  intros sent run Hlive Hlg Hok.
  assert (Hlive' : aborted (logged lg ("disconnecting device of id: "
                                       +:+ pretty device_id) w) = false)
    by (now rewrite (logged_keeps _ _ _ Hlg)).
  unfold run.
  rewrite (disconnectDeviceById_accepted_run d1 d2 lg tr fuel device_id w
             Hlive' Hok).
  cbn [fst snd]. rewrite logged_calls, logged_lines, logged_storage.
  cbn [calls lines storage set_calls].
  rewrite logged_lines, logged_storage, <- app_assoc. now repeat split.
Qed.

(** X13: [fetchActiveDevices] never sends anything but the GET of the
    device list and refreshes, and [disconnectDeviceById(id)] never
    anything but the DELETE of [/devices/id] and refreshes: no other device
    is ever deleted. *)
Theorem operations_stay_on_their_endpoints d1 d2 lg tr fuel device_id w :
  let client := createSetappClient d1 d2 lg in
  (exists added,
     calls (snd (Client.fetchActiveDevices client tr fuel w)) = calls w ++ added
     /\ Forall (fun c =>
          (url c = "https://user-api.setapp.com/v1/devices"
           /\ method c = GET /\ body c = None)
          \/ is_refresh c) added)
  /\ (exists added,
        calls (snd (Client.disconnectDeviceById client tr fuel device_id w))
        = calls w ++ added
        /\ Forall (fun c =>
             (url c = "https://user-api.setapp.com/v1/devices/"
                      +:+ pretty device_id
              /\ method c = DELETE /\ body c = None)
             \/ is_refresh c) added).
Proof.
  cbv zeta. split.
  - rewrite fetchActiveDevices_calls.
    destruct (request_calls_shape d1 d2 lg tr fuel
                (Request_new DEVICES_URL GET None)
                (logged lg "start fetching devices." w)) as (added & Hc & Hf).
    rewrite logged_calls in Hc. exists added. split; [exact Hc|].
    revert Hf. apply List.Forall_impl. intros c [_ [H|H]]; [left|right]; exact H.
  - rewrite disconnectDeviceById_calls.
    destruct (request_calls_shape d1 d2 lg tr fuel
                (Request_new (DEVICES_URL +:+ "/" +:+ pretty device_id) DELETE None)
                (logged lg ("disconnecting device of id: " +:+ pretty device_id) w))
      as (added & Hc & Hf).
    rewrite logged_calls in Hc. exists added. split; [exact Hc|].
    revert Hf. apply List.Forall_impl. intros c [_ [H|H]]; [left|right]; exact H.
Qed.

(** X14: [fn] closes the window exactly when it completes, after the
    delay of four seconds, and then it has either copied nothing or copied
    the password first; when it fails or does not settle, it has neither
    copied anything nor closed the window.  For any client. *)
Theorem workflow_closes_iff_done this pw tr fuel h :
  let run := Component.fn this pw tr fuel h in
  (fst run = Done tt
   /\ (events (snd run) = events h ++ [Waited 4000; WindowClosed Immediate]
       \/ events (snd run)
          = events h ++ [Copied pw; Waited 4000; WindowClosed Immediate]))
  \/ (fst run <> Done tt /\ events (snd run) = events h).
Proof.
  cbv zeta. rewrite fn_run.
  destruct (Client.fetchActiveDevices this tr fuel (world h))
    as [[devices|e|] w1]; [|right; split; [discriminate|reflexivity] ..].
  destruct devices as [|d [|d' rest]].
  - left. split; [reflexivity | now left].
  - destruct (Client.disconnectDeviceById this tr fuel (id d) w1)
      as [[[]|e|] w2]; [|right; split; [discriminate|reflexivity] ..].
    left. split; [reflexivity | now right].
  - right. split; [discriminate | reflexivity].
Qed.

(** X15: [fn] copies the password only after a disconnect that the service
    has accepted: when the password is among the events it has added, the
    last call made is the DELETE of a device, its answer is a success, and
    [fn] has completed. *)
Theorem secret_copied_only_after_disconnect d1 d2 lg tr pw fuel h rest :
  let run := Component.fn (createSetappClient d1 d2 lg) pw tr fuel h in
  events (snd run) = events h ++ Copied pw :: rest ->
  fst run = Done tt
  /\ ok (tr (calls (world (snd run)))) = true
  /\ exists earlier (device_id : Z) token,
       calls (world (snd run))
       = earlier
         ++ [ {| url := "https://user-api.setapp.com/v1/devices/"
                        +:+ pretty device_id;
                 method := DELETE; body := None;
                 headers := [("Authorization", "Bearer " +:+ token);
                             ("Accept", "application/json")] |} ].
Proof.
  cbv zeta. rewrite fn_run.
  assert (Hnone : events h = events h ++ Copied pw :: rest -> False).
  { intros H. apply (f_equal (@length HostEvent)) in H.
    rewrite length_app in H. cbn [length] in H. lia. }
  destruct (Client.fetchActiveDevices _ tr fuel (world h))
    as [[devices|e|] w1]; cbn [snd events]; try (intros H; now destruct (Hnone H)).
  destruct devices as [|d [|d' more]]; cbn [snd events].
  - intros H. apply app_inv_head in H. discriminate.
  - rewrite disconnectDeviceById_run.
    set (req := Request_new (DEVICES_URL +:+ "/" +:+ pretty (id d)) DELETE None).
    set (w2 := logged lg _ w1).
    pose proof (request_returned_last d1 d2 lg tr fuel req w2) as Hlast.
    cbv zeta in Hlast.
    destruct (Client.request _ tr fuel req w2) as [[resp|e|] w3];
      cbn [fst snd events world] in *; try (intros H; now destruct (Hnone H)).
    intros _. destruct (Hlast resp eq_refl) as (Hok & Hresp & earlier & Hcalls).
    split; [reflexivity|]. rewrite !logged_calls. split; [now rewrite <- Hresp|].
    exists earlier, (id d), (access_token d1 w3). exact Hcalls.
  - intros H. now destruct (Hnone H).
Qed.

(** [fn] after an accepted list call. *)
Lemma fn_after_list d1 d2 lg tr pw fuel h doc devices :
  let w := world h in
  let sent := Request_init (Request_new DEVICES_URL GET None)
                (auth_headers (access_token d1 w)) in
  let w1 := set_calls (calls w ++ [sent])
              (set_lines (lines w ++ ["start fetching devices."]) w) in
  aborted w = false ->
  (forall text, lg text = Keeps) ->
  ok (tr (calls w ++ [sent])) = true ->
  json (tr (calls w ++ [sent])) = Some doc ->
  as_device_list doc = Some devices ->
  Component.fn (createSetappClient d1 d2 lg) pw tr (S fuel) h =
  match devices with
  | [] =>
      (Done tt,
       {| world := set_lines (lines w1
                     ++ ["there is no active devices, closing..."]) w1;
          events := events h ++ [Waited 4000; WindowClosed Immediate] |})
  | [device] =>
      let w2 := set_lines (lines w1 ++ ["fetched devices: " +:+ name device]) w1 in
      match Client.disconnectDeviceById (createSetappClient d1 d2 lg) tr
              (S fuel) (id device) w2 with
      | (Returned _, w3) =>
          (Done tt,
           {| world := set_lines (lines w3 ++ ["done."]) w3;
              events := events h ++ [Copied pw; Waited 4000;
                                     WindowClosed Immediate] |})
      | (Thrown e, w3) =>
          (Failed (Rejected e), {| world := w3; events := events h |})
      | (Pending, w3) => (Unsettled, {| world := w3; events := events h |})
      end
  | _ :: _ :: _ =>
      (Failed (AssertionError (device_count_message devices)),
       {| world := set_lines (lines w1
                     ++ ["fetched devices: "
                         +:+ String.concat ", " (map name devices)]) w1;
          events := events h |})
  end.
Proof.
  intros w sent w1 Hlive Hlg Hok Hdoc Hdev.
  assert (Hlive' : aborted (logged lg "start fetching devices." w) = false)
    by (now rewrite (logged_keeps _ _ _ (Hlg _))).
  rewrite fn_run. fold w.
  rewrite (fetchActiveDevices_accepted_run d1 d2 lg tr fuel w doc devices
             Hlive' Hok Hdoc Hdev).
  fold sent. rewrite (logged_keeps _ _ _ (Hlg "start fetching devices.")).
  fold w1.
  destruct devices as [|d [|d' rest]].
  - change (0 <? Z.of_nat (length (@nil Device))) with false. cbv iota.
    now rewrite (logged_keeps _ _ _ (Hlg _)).
  - change (0 <? Z.of_nat (length [d])) with true. cbv iota.
    rewrite (logged_keeps _ _ _ (Hlg _)). cbv zeta.
    change (String.concat ", " (map name [d])) with (name d).
    destruct (Client.disconnectDeviceById _ tr (S fuel) (id d) _)
      as [[[]|e|] w3]; try reflexivity.
    now rewrite (logged_keeps _ _ _ (Hlg _)).
  - destruct (several_is_not_zero d d' rest) as (_ & _ & Hpos).
    rewrite Hpos. now rewrite (logged_keeps _ _ _ (Hlg _)).
Qed.

(** X16: with more than one active device [fn] fails on its assertion,
    with the message that gives the count; it has made the list call only,
    has deleted nothing, copied nothing, and left the window open. *)
Theorem workflow_rejects_several_devices d1 d2 lg tr pw fuel h doc devices :
  let sent :=
    {| url := "https://user-api.setapp.com/v1/devices"; method := GET;
       body := None;
       headers := [("Authorization", "Bearer " +:+ access_token d1 (world h));
                   ("Accept", "application/json")] |} in
  let run := Component.fn (createSetappClient d1 d2 lg) pw tr (S fuel) h in
  aborted (world h) = false ->
  (forall text, lg text = Keeps) ->
  ok (tr (calls (world h) ++ [sent])) = true ->
  json (tr (calls (world h) ++ [sent])) = Some doc ->
  as_device_list doc = Some devices ->
  (2 <= length devices)%nat ->
  fst run = Failed (AssertionError
              ("Unexpected device count, got "
               +:+ pretty (Z.of_nat (length devices)) +:+ " devices."))
  /\ calls (world (snd run)) = calls (world h) ++ [sent]
  /\ events (snd run) = events h.
Proof.
  intros sent run Hlive Hlg Hok Hdoc Hdev Hlen. unfold run.
  rewrite (fn_after_list d1 d2 lg tr pw fuel h doc devices
             Hlive Hlg Hok Hdoc Hdev).
  destruct devices as [|d [|d' rest]]; cbn [length] in Hlen; try lia.
  now repeat split.
Qed.

(** X17: with no active device [fn] completes after the list call alone:
    it tells the logger so, waits four seconds and closes the window,
    without deleting or copying anything. *)
Theorem workflow_without_devices d1 d2 lg tr pw fuel h doc :
  let sent :=
    {| url := "https://user-api.setapp.com/v1/devices"; method := GET;
       body := None;
       headers := [("Authorization", "Bearer " +:+ access_token d1 (world h));
                   ("Accept", "application/json")] |} in
  let run := Component.fn (createSetappClient d1 d2 lg) pw tr (S fuel) h in
  aborted (world h) = false ->
  (forall text, lg text = Keeps) ->
  ok (tr (calls (world h) ++ [sent])) = true ->
  json (tr (calls (world h) ++ [sent])) = Some doc ->
  as_device_list doc = Some [] ->
  fst run = Done tt
  /\ calls (world (snd run)) = calls (world h) ++ [sent]
  /\ events (snd run) = events h ++ [Waited 4000; WindowClosed Immediate]
  /\ lines (world (snd run))
     = lines (world h) ++ ["start fetching devices.";
                           "there is no active devices, closing..."].
Proof.
  intros sent run Hlive Hlg Hok Hdoc Hdev. unfold run.
  rewrite (fn_after_list d1 d2 lg tr pw fuel h doc []
             Hlive Hlg Hok Hdoc Hdev).
  cbn [fst snd world events calls lines set_lines set_calls].
  rewrite <- app_assoc. now repeat split.
Qed.

(** X18: with one active device whose DELETE is accepted, [fn] makes the
    two calls, the list and the DELETE of that device, then copies the
    password, waits four seconds and closes the window; the logger has
    received its five lines, in order. *)
Theorem workflow_with_one_device d1 d2 lg tr pw fuel h doc device :
  let token := access_token d1 (world h) in
  let sent :=
    {| url := "https://user-api.setapp.com/v1/devices"; method := GET;
       body := None;
       headers := [("Authorization", "Bearer " +:+ token);
                   ("Accept", "application/json")] |} in
  let delete :=
    {| url := "https://user-api.setapp.com/v1/devices/" +:+ pretty (id device);
       method := DELETE; body := None;
       headers := [("Authorization", "Bearer " +:+ token);
                   ("Accept", "application/json")] |} in
  let run := Component.fn (createSetappClient d1 d2 lg) pw tr (S fuel) h in
  aborted (world h) = false ->
  (forall text, lg text = Keeps) ->
  ok (tr (calls (world h) ++ [sent])) = true ->
  json (tr (calls (world h) ++ [sent])) = Some doc ->
  as_device_list doc = Some [device] ->
  ok (tr (calls (world h) ++ [sent; delete])) = true ->
  fst run = Done tt
  /\ calls (world (snd run)) = calls (world h) ++ [sent; delete]
  /\ events (snd run)
     = events h ++ [Copied pw; Waited 4000; WindowClosed Immediate]
  /\ lines (world (snd run))
     = lines (world h)
       ++ ["start fetching devices.";
           "fetched devices: " +:+ name device;
           "disconnecting device of id: " +:+ pretty (id device);
           "device disconnected";
           "done."].
Proof.
  intros token sent delete run Hlive Hlg Hok Hdoc Hdev Hok2. unfold run.
  rewrite (fn_after_list d1 d2 lg tr pw fuel h doc [device]
             Hlive Hlg Hok Hdoc Hdev).
  cbv zeta.
  set (w2 := set_lines _ (set_calls _ _)).
  assert (Hlive2 : aborted (logged lg ("disconnecting device of id: "
                                       +:+ pretty (id device)) w2) = false)
    by (rewrite (logged_keeps _ _ _ (Hlg _)); exact Hlive).
  assert (Hok2' : ok (tr (calls w2 ++
                    [Request_init
                       (Request_new (DEVICES_URL +:+ "/" +:+ pretty (id device))
                          DELETE None)
                       (auth_headers (access_token d1 w2))])) = true).
  { cbn [calls w2 set_lines set_calls]. rewrite <- app_assoc. exact Hok2. }
  rewrite (disconnectDeviceById_accepted_run d1 d2 lg tr fuel (id device) w2
             Hlive2 Hok2').
  rewrite !(logged_keeps _ _ _ (Hlg _)).
  cbn [fst snd world events calls lines set_lines set_calls w2].
  rewrite <- !app_assoc. now repeat split.
Qed.

(** X21: on a client that has been disposed, [fn] fails with [AbortError]
    at once: no call reaches the network, nothing is copied, and the window
    is not closed. *)
Theorem disposed_workflow_does_nothing d1 d2 lg tr pw fuel h :
  let run := Component.fn (createSetappClient d1 d2 lg) pw tr (S fuel) h in
  aborted (world h) = true ->
  fst run = Failed (Rejected AbortError)
  /\ calls (world (snd run)) = calls (world h)
  /\ storage (world (snd run)) = storage (world h)
  /\ events (snd run) = events h.
Proof.
  intros run Hab. unfold run.
  rewrite fn_run, fetchActiveDevices_run, request_aborted
    by (now apply logged_aborted).
  cbn [fst snd world events]. rewrite logged_calls, logged_storage.
  now repeat split.
Qed.

Lemma string_app_assoc (a b c : string) : (a +:+ b) +:+ c = a +:+ b +:+ c.
Proof.
  induction a as [|x a IH]; [reflexivity|].
  change (String x ((a +:+ b) +:+ c) = String x (a +:+ b +:+ c)).
  now rewrite IH.
Qed.

Lemma concat_snoc sep (l : list string) x :
  l <> [] -> String.concat sep (l ++ [x]) = String.concat sep l +:+ sep +:+ x.
Proof.
  induction l as [|a [|b l] IH]; intros Hl; [congruence|reflexivity|].
  change (String.concat sep ((a :: b :: l) ++ [x]))
    with (a +:+ sep +:+ String.concat sep ((b :: l) ++ [x])).
  rewrite IH by discriminate.
  change (String.concat sep (a :: b :: l))
    with (a +:+ sep +:+ String.concat sep (b :: l)).
  now rewrite !string_app_assoc.
Qed.

(** X20: a line handed to the logger adds one bullet at the end of the
    markdown of the component, after a line feed when it is not the first;
    what was shown before stays as it was. *)
Theorem markdown_grows lg text w :
  Component.markdown (lines (logged lg text w))
  = match lines w with
    | [] => "* " +:+ text
    | _ :: _ => Component.markdown (lines w) +:+ Component.LF +:+ "* " +:+ text
    end.
Proof.
  rewrite logged_lines. unfold Component.markdown. rewrite map_app.
  destruct (lines w) as [|a l]; [reflexivity|].
  apply concat_snoc. discriminate.
Qed.

(** ** The properties at the scenarios of the tests *)

Lemma updateTokens_two_keys_witness :
  storage (snd (updateTokens (TokenStore "t0" "r0") "11" "22"
                   (set_storage (insert "Password" "secret") fresh)))
    !! "Password"
  = Some "secret".
Proof.
  destruct (updateTokens_two_keys "t0" "r0" "11" "22"
              (set_storage (insert "Password" "secret") fresh))
    as (_ & H & _).
  rewrite H; [reflexivity | discriminate | discriminate].
Defined.

Lemma accepted_request_is_one_call_witness :
  fst (Client.request (createSetappClient "t0" "r0" sink) accepting 1
         devices_request fresh)
  = Returned {| status := 200; json := Some macOS_doc |}
  /\ fst (Main.request (TokenStore "t0" "r0") sink accepting 1
            devices_request fresh)
     = Returned {| status := 200; json := Some macOS_doc |}.
Proof.
  destruct (accepted_request_is_one_call "t0" "r0" sink accepting 0%nat
              devices_request fresh eq_refl eq_refl) as [-> ->].
  split; reflexivity.
Defined.

Lemma returned_response_answers_request_witness :
  ok {| status := 200; json := Some macOS_doc |} = true
  /\ exists earlier,
       calls (snd (Client.request (createSetappClient "t0" "r0" sink)
                     (expired_once "11" "22") 2 devices_request fresh))
       = earlier ++ [ {| url := "https://user-api.setapp.com/v1/devices";
                         method := GET; body := None;
                         headers := [("Authorization", "Bearer 11");
                                     ("Accept", "application/json")] |} ].
Proof.
  destruct (returned_response_answers_request "t0" "r0" sink
              (expired_once "11" "22") 2%nat devices_request fresh
              {| status := 200; json := Some macOS_doc |} eq_refl)
    as (H1 & _ & earlier & H2).
  split; [exact H1|]. exists earlier. exact H2.
Defined.

Lemma session_touches_only_token_keys_witness :
  storage (session (createSetappClient "t0" "r0" sink) (expired_once "11" "22") 3
             [FetchActiveDevices; DisconnectDeviceById 123]
             (set_storage (insert "Password" "secret") fresh)) !! "Password"
  = Some "secret".
Proof.
  rewrite (session_touches_only_token_keys "t0" "r0" sink (expired_once "11" "22")
             3%nat [FetchActiveDevices; DisconnectDeviceById 123]
             (set_storage (insert "Password" "secret") fresh) "Password");
    [reflexivity | discriminate | discriminate].
Defined.

Lemma fulfilled_run_counts_witness :
  let run := Client.request (createSetappClient "t0" "r0" sink)
               (expired_once "11" "22") 2 devices_request fresh in
  (length (calls (snd run)) - 0 = S (length (lines (snd run)) - 0))%nat.
Proof.
  exact (proj1 (fulfilled_run_counts "t0" "r0" sink (expired_once "11" "22")
                  2%nat devices_request fresh
                  {| status := 200; json := Some macOS_doc |} eq_refl)).
Defined.

Lemma refused_refresh_is_terminal_witness :
  fst (Client.request (createSetappClient "t0" "r0" sink)
         (expired_then {| status := 500; json := None |}) 2
         devices_request fresh)
  = Thrown (Error "request error: https://user-api.setapp.com/v1/token")
  /\ fst (Main.request (TokenStore "t0" "r0") sink
            (expired_then {| status := 500; json := None |}) 2
            devices_request fresh)
     = Thrown (Error "request error: https://user-api.setapp.com/v1/token").
Proof.
  destruct (refused_refresh_is_terminal "t0" "r0" sink
              (expired_then {| status := 500; json := None |}) 0%nat
              devices_request fresh eq_refl eq_refl eq_refl eq_refl)
    as [(H1 & _) (H2 & _)]; [discriminate|].
  split; [exact H1 | exact H2].
Defined.

Lemma malformed_refresh_is_terminal_witness :
  fst (Client.request (createSetappClient "t0" "r0" sink)
         (expired_then {| status := 200; json := None |}) 2
         devices_request fresh)
  = Thrown SyntaxError
  /\ fst (Client.request (createSetappClient "t0" "r0" sink)
            (expired_then {| status := 200; json := Some JNull |}) 2
            devices_request fresh)
     = Thrown TypeError.
Proof.
  split.
  - exact (proj1 (malformed_refresh_is_terminal "t0" "r0" sink
                    (expired_then {| status := 200; json := None |}) 0%nat
                    devices_request fresh eq_refl eq_refl eq_refl eq_refl
                    (or_introl eq_refl))).
  - exact (proj1 (malformed_refresh_is_terminal "t0" "r0" sink
                    (expired_then {| status := 200; json := Some JNull |}) 0%nat
                    devices_request fresh eq_refl eq_refl eq_refl eq_refl
                    (or_intror (ex_intro _ JNull (conj eq_refl eq_refl))))).
Defined.


Lemma fetchActiveDevices_accepted_witness :
  let run := Client.fetchActiveDevices (createSetappClient "t0" "r0" sink)
               idle 1 fresh in
  fst run = Returned [] /\ lines (snd run) = ["start fetching devices."].
Proof.
  destruct (fetchActiveDevices_accepted "t0" "r0" sink idle 0%nat fresh
              (JObject [("data", JArray [])]) []
              eq_refl eq_refl eq_refl eq_refl eq_refl) as (H1 & _ & H2).
  split; [exact H1 | exact H2].
Defined.

Lemma disconnectDeviceById_accepted_witness :
  let run := Client.disconnectDeviceById (createSetappClient "t0" "r0" sink)
               accepting 1 111 fresh in
  fst run = Returned tt
  /\ map url (calls (snd run)) = ["https://user-api.setapp.com/v1/devices/111"].
Proof.
  destruct (disconnectDeviceById_accepted "t0" "r0" sink accepting 0%nat 111 fresh
              eq_refl eq_refl eq_refl) as (H1 & H2 & _).
  split; [exact H1 | now rewrite H2].
Defined.

Lemma secret_copied_only_after_disconnect_witness :
  let run := Component.fn (createSetappClient "t0" "r0" sink) "secret"
               accepting 1 boot in
  fst run = Done tt /\ ok (accepting (calls (world (snd run)))) = true.
Proof.
  destruct (secret_copied_only_after_disconnect "t0" "r0" sink accepting "secret"
              1%nat boot [Waited 4000; WindowClosed Immediate] eq_refl)
    as (H1 & H2 & _).
  split; [exact H1 | exact H2].
Defined.

Lemma workflow_rejects_several_devices_witness :
  let run := Component.fn (createSetappClient "t0" "r0" sink) "secret"
               crowded 1 boot in
  fst run = Failed (AssertionError "Unexpected device count, got 2 devices.")
  /\ events (snd run) = [].
Proof.
  destruct (workflow_rejects_several_devices "t0" "r0" sink crowded "secret"
              0%nat boot _ [{| id := 123; name := "macOS" |};
                            {| id := 456; name := "iPad" |}]
              eq_refl (fun _ => eq_refl) eq_refl eq_refl eq_refl
              (le_n 2)) as (H1 & _ & H2).
  split; [exact H1 | exact H2].
Defined.

Lemma workflow_without_devices_witness :
  let run := Component.fn (createSetappClient "t0" "r0" sink) "secret"
               idle 1 boot in
  fst run = Done tt
  /\ events (snd run) = [Waited 4000; WindowClosed Immediate].
Proof.
  destruct (workflow_without_devices "t0" "r0" sink idle "secret" 0%nat boot _
              eq_refl (fun _ => eq_refl) eq_refl eq_refl eq_refl)
    as (H1 & _ & H2 & _).
  split; [exact H1 | exact H2].
Defined.

Lemma workflow_with_one_device_witness :
  let run := Component.fn (createSetappClient "t0" "r0" sink) "secret"
               accepting 1 boot in
  fst run = Done tt
  /\ events (snd run) = [Copied "secret"; Waited 4000; WindowClosed Immediate]
  /\ lines (world (snd run))
     = ["start fetching devices."; "fetched devices: macOS";
        "disconnecting device of id: 123"; "device disconnected"; "done."].
Proof.
  destruct (workflow_with_one_device "t0" "r0" sink accepting "secret" 0%nat boot
              _ {| id := 123; name := "macOS" |}
              eq_refl (fun _ => eq_refl) eq_refl eq_refl eq_refl eq_refl)
    as (H1 & _ & H2 & H3).
  split; [exact H1|]. split; [exact H2 | exact H3].
Defined.

Lemma main_agrees_with_component_witness :
  main (TokenStore "t0" "r0") "secret" sink accepting 1 boot
  = Component.fn (createSetappClient "t0" "r0" sink) "secret" accepting 1 boot.
Proof.
  apply (main_agrees_with_component "t0" "r0" sink accepting "secret" 1%nat boot).
  - intros history. discriminate.
  - intros doc [= <-]. discriminate.
  - intros text. reflexivity.
  - reflexivity.
Defined.

Lemma disposed_workflow_does_nothing_witness :
  let h := {| world := snd (Client.dispose fresh); events := [] |} in
  let run := Component.fn (createSetappClient "t0" "r0" sink) "secret"
               accepting 1 h in
  fst run = Failed (Rejected AbortError) /\ events (snd run) = [].
Proof.
  destruct (disposed_workflow_does_nothing "t0" "r0" sink accepting "secret"
              0%nat {| world := snd (Client.dispose fresh); events := [] |}
              eq_refl) as (H1 & _ & _ & H2).
  split; [exact H1 | exact H2].
Defined.
